(** * SceneGraph: the connection model and the connection-making protocol

    A shallow embedding of [src/core/nodes.py] (terminals and lines) and of
    the scene of [src/ui/graphics.py] (press / move / release handlers,
    connection validation, widget registration), with the properties that the
    specification states about them.

    Python objects that are mutated through several references (the
    [connectedLine] list of a terminal, the [connections] dict of a
    connection widget, the provisional line of the scene) live in explicit
    stores indexed by object identity. *)

From Stdlib Require Import ZArith String List Bool Lia.
From stdpp Require Import base option list gmap strings.

Local Open Scope string_scope.
Local Open Scope list_scope.

(** Scene coordinates ([QPointF]) and segments ([QLineF]). *)
Definition QPointF : Type := (Z * Z)%type.
Definition QLineF : Type := (QPointF * QPointF)%type.

Definition p1 (l : QLineF) : QPointF := fst l.
Definition p2 (l : QLineF) : QPointF := snd l.

(** Object identity. *)
Definition ref : Type := positive.

(** [list.remove(x)]: drops the first occurrence, [None] stands for the
    [ValueError] raised when [x] does not occur. *)
Fixpoint list_remove_first (x : ref) (xs : list ref) : option (list ref) :=
  match xs with
  | [] => None
  | y :: ys =>
      if Pos.eqb y x then Some ys
      else match list_remove_first x ys with
           | Some ys' => Some (y :: ys')
           | None => None
           end
  end.

(** Number of occurrences of an object in a Python list. *)
Fixpoint occurrences (x : ref) (xs : list ref) : nat :=
  match xs with
  | [] => 0
  | y :: ys => (if Pos.eqb y x then 1 else 0) + occurrences x ys
  end.

(* ------------------------------------------------------------------ *)
(** ** src/core/nodes.py *)
(* ------------------------------------------------------------------ *)

Module Nodes.

(** [ConnectionBase] / [ConnectionNode]: [NodeInput] sets [isInputConnection],
    [NodeOutput] sets [isOutputConnection], a plain [ConnectionNode] has
    neither. [center] is [sceneBoundingRect().center()]. *)
Record ConnectionNode := mkConnectionNode {
  name : string;
  parent_name : string;
  isInputConnection : bool;
  isOutputConnection : bool;
  connectedLine : list ref;
  center : QPointF
}.

Definition ConnectionNode_init (parent nm : string) (c : QPointF) : ConnectionNode :=
  mkConnectionNode nm parent false false [] c.

Definition NodeInput_init (parent nm : string) (c : QPointF) : ConnectionNode :=
  mkConnectionNode nm parent true false [] c.

Definition NodeOutput_init (parent nm : string) (c : QPointF) : ConnectionNode :=
  mkConnectionNode nm parent false true [] c.

(** [ConnectionBase.__repr__] *)
Definition repr (c : ConnectionNode) : string :=
  (parent_name c ++ "." ++ name c)%string.

(** [LineClass]: the two endpoints are references to terminal objects. *)
Record LineClass := mkLineClass {
  line_id : ref;
  line_name : string;
  myStartItem : ref;
  myEndItem : ref;
  sourcePoint : QPointF;
  destPoint : QPointF
}.

(** The objects a line can reach: the terminals, the items of the scene the
    line may have been added to, and the segment each line item displays. *)
Record Heap := mkHeap {
  terminals : gmap ref ConnectionNode;
  scene_items : list ref;
  geometry : gmap ref QLineF
}.

(** [LineClass.__init__]. The name and the two points are computed from the
    arguments as given; the swap comes last. Every terminal of this module
    has the attribute [isInputConnection], so the [AttributeError] branch of
    the source is not reachable here. [None]: a reference that is not
    allocated. *)
Definition LineClass_init (h : Heap) (self startItem endItem : ref) : option LineClass :=
  match terminals h !! startItem, terminals h !! endItem with
  | Some s, Some e =>
      let nm := (repr s ++ "." ++ repr e)%string in
      if isInputConnection s
      then Some (mkLineClass self nm endItem startItem (center s) (center e))
      else Some (mkLineClass self nm startItem endItem (center s) (center e))
  | _, _ => None
  end.

Definition center_of (h : Heap) (r : ref) : QPointF :=
  match terminals h !! r with
  | Some c => center c
  | None => (0, 0)%Z
  end.

(** [LineClass.getLine]; the line item is never moved, so [mapFromScene] is
    the identity. *)
Definition getLine (h : Heap) (l : LineClass) : QLineF :=
  (center_of h (myStartItem l), center_of h (myEndItem l)).

Definition append_line (l : ref) (c : ConnectionNode) : ConnectionNode :=
  mkConnectionNode (name c) (parent_name c) (isInputConnection c)
    (isOutputConnection c) (connectedLine c ++ [l]) (center c).

Definition set_connectedLine (xs : list ref) (c : ConnectionNode) : ConnectionNode :=
  mkConnectionNode (name c) (parent_name c) (isInputConnection c)
    (isOutputConnection c) xs (center c).

(** [LineClass.updatePosition]: the two appends run one after the other on
    the store, so a line whose endpoints are one and the same terminal is
    appended twice to that terminal's list. *)
Definition updatePosition (h : Heap) (l : LineClass) : Heap :=
  let g := <[line_id l := getLine h l]> (geometry h) in
  let t1 := alter (append_line (line_id l)) (myStartItem l) (terminals h) in
  let t2 := alter (append_line (line_id l)) (myEndItem l) t1 in
  mkHeap t2 (scene_items h) g.


Inductive error := NoneTypeAttributeError | ValueError.

Inductive outcome :=
  | Done (h : Heap)
  | Raised (e : error) (h : Heap).

Definition lines_of (h : Heap) (r : ref) : list ref :=
  match terminals h !! r with
  | Some c => connectedLine c
  | None => []
  end.

(** [LineClass.deleteNode]. A line item is truthy, so the [if self] test
    passes. [self.scene()] is [None] for a line that is in no scene, and the
    call of [removeItem] on it raises an [AttributeError]; [list.remove] raises
    [ValueError] when the line is not in the list. Mutations made before an
    exception stay. *)
Definition deleteNode (h : Heap) (l : LineClass) : outcome :=
  if bool_decide (line_id l ∈ scene_items h) then
    let h1 := mkHeap (terminals h)
                (filter (λ i, i ≠ line_id l) (scene_items h)) (geometry h) in
    match list_remove_first (line_id l) (lines_of h1 (myStartItem l)) with
    | None => Raised ValueError h1
    | Some xs =>
        let h2 := mkHeap (alter (set_connectedLine xs) (myStartItem l) (terminals h1))
                    (scene_items h1) (geometry h1) in
        match list_remove_first (line_id l) (lines_of h2 (myEndItem l)) with
        | None => Raised ValueError h2
        | Some ys =>
            Done (mkHeap (alter (set_connectedLine ys) (myEndItem l) (terminals h2))
                  (scene_items h2) (geometry h2))
        end
    end
  else Raised NoneTypeAttributeError h.

(** How often the line is registered on a terminal. *)
Definition registered (h : Heap) (l : LineClass) (r : ref) : nat :=
  occurrences (line_id l) (lines_of h r).

(** How many of the two endpoints of a line are the terminal [r]. *)
Definition endpoints_at (l : LineClass) (r : ref) : nat :=
  (if decide (myStartItem l = r) then 1 else 0)
  + (if decide (myEndItem l = r) then 1 else 0).

(** [LineClass.keyPressEvent]: the Delete key deletes the line, every other
    key goes to the base class. *)
Inductive Key := Key_Delete | Key_Backspace | Key_other.

Definition keyPressEvent (h : Heap) (l : LineClass) (key : Key) : outcome :=
  match key with
  | Key_Delete => deleteNode h l
  | _ => Done h
  end.

(** [NodeBase], with the integer width and height that [__init__] has as
    defaults; the two buffers are set to 3 by [__init__]. *)
Record NodeBase := mkNodeBase {
  base_name : string;
  width : Z;
  height : Z;
  bufferX : Z;
  bufferY : Z
}.

Definition NodeBase_init (nm : string) (w h : Z) : NodeBase :=
  mkNodeBase nm w h 3 3.

(** [QRectF(x, y, w, h)] *)
Record QRectF := mkQRectF {
  rect_x : Z;
  rect_y : Z;
  rect_w : Z;
  rect_h : Z
}.

(** [NodeBase.boundingRect]. [-self.width/2] is [(-self.width)/2], and on
    integers the division rounds down. *)
Definition boundingRect (n : NodeBase) : QRectF :=
  mkQRectF ((- width n) / 2 - bufferX n) ((- height n) / 2 - bufferY n)
    (width n + 3 + bufferX n) (height n + 3 + bufferY n).

(** [NodeBase.getLabelLine]: from [topLeft()] to [topRight()], both moved
    down by [bufferY*8]. *)
Definition getLabelLine (n : NodeBase) : QLineF :=
  let r := boundingRect n in
  ((rect_x r, rect_y r + bufferY n * 8),
   (rect_x r + rect_w r, rect_y r + bufferY n * 8))%Z.

End Nodes.

(* ------------------------------------------------------------------ *)
(** ** src/ui/graphics.py: the scene *)
(* ------------------------------------------------------------------ *)

Module Graphics.

Inductive MouseButton := LeftButton | RightButton | MidButton | NoButton.

Record MouseEvent := mkMouseEvent {
  scenePos : QPointF;
  button : MouseButton
}.

(** [node_widgets.Connection], as this file uses it: the two direction tests
    are separate methods, [dagnode.id] is the id of the owning node, and
    [is_connectable] is read only after [hasattr] ([None]: no such
    attribute). The [connections] dict is mutable and lives in the scene
    store under [conn_id]. *)
Record Connection := mkConnection {
  conn_id : ref;
  conn_name : string;
  connection_name : string;
  conn_dagnode : string;
  isInputConnection : bool;
  isOutputConnection : bool;
  is_connectable : option bool;
  conn_center : QPointF
}.

(** [node_widgets.Edge]: [edge_id] is [dagnode.id]. *)
Record Edge := mkEdge {
  edge_id : string;
  edge_name : string;
  source_item : Connection;
  dest_item : Connection
}.

(** [node_widgets.Node] with its terminal widgets. *)
Record Node := mkNode {
  node_id : string;
  node_name : string;
  inputs : list Connection;
  outputs : list Connection
}.

Inductive Widget :=
  | WNode (n : Node)
  | WEdge (e : Edge).

(** What a [QGraphicsScene] holds: the line items made by the press handler,
    connection widgets, node and edge widgets, anything else. *)
Inductive Item :=
  | ILine (l : ref)
  | IConnection (c : Connection)
  | INode (n : Node)
  | IEdge (e : Edge)
  | IOther (r : ref).

(** The objects of [graph.dagnodes]: [core.DagNode], [core.DagEdge], or
    neither. *)
Inductive Dag :=
  | DagNode (id nm : string)
  | DagEdge (id src_id dest_id src_attr dest_attr : string)
  | DagOther (id : string).

Record Graph := mkGraph {
  dagnodes : gmap string Dag
}.

Definition has_edge (g : Graph) (id : string) : bool :=
  match dagnodes g !! id with
  | Some (DagEdge _ _ _ _ _) => true
  | _ => false
  end.

(** What the handlers print or hand to the logger. *)
Inductive Message :=
  | PrintWrongType
  | PrintInvalidOrder
  | PrintSameNode
  | WarnNotConnectable (nm : string)
  | WarnForcing (nm : string)
  | WarnRemovalFailed (nm : string)
  | DebugAdding (n : nat).

(** [GraphicsScene]. [line] is the attribute [self.line]; the segment of
    every line item made so far is in [lines]; [items] lists the scene's
    items, the most recently added first; [connections] holds the
    [connections] dict of every connection widget. *)
Record Scene := mkScene {
  line : option ref;
  lines : gmap ref QLineF;
  items : list Item;
  graph : Graph;
  scenenodes : gmap string Widget;
  connections : gmap ref (gmap string Edge);
  next_ref : ref;
  log : list Message
}.

Definition set_line (v : option ref) (s : Scene) : Scene :=
  mkScene v (lines s) (items s) (graph s) (scenenodes s) (connections s)
    (next_ref s) (log s).

Definition set_lines (v : gmap ref QLineF) (s : Scene) : Scene :=
  mkScene (line s) v (items s) (graph s) (scenenodes s) (connections s)
    (next_ref s) (log s).

Definition set_items (v : list Item) (s : Scene) : Scene :=
  mkScene (line s) (lines s) v (graph s) (scenenodes s) (connections s)
    (next_ref s) (log s).

Definition set_graph (v : Graph) (s : Scene) : Scene :=
  mkScene (line s) (lines s) (items s) v (scenenodes s) (connections s)
    (next_ref s) (log s).

Definition set_scenenodes (v : gmap string Widget) (s : Scene) : Scene :=
  mkScene (line s) (lines s) (items s) (graph s) v (connections s)
    (next_ref s) (log s).

Definition set_connections (v : gmap ref (gmap string Edge)) (s : Scene) : Scene :=
  mkScene (line s) (lines s) (items s) (graph s) (scenenodes s) v
    (next_ref s) (log s).

Definition set_next_ref (v : ref) (s : Scene) : Scene :=
  mkScene (line s) (lines s) (items s) (graph s) (scenenodes s) (connections s)
    v (log s).

Definition say (m : Message) (s : Scene) : Scene :=
  mkScene (line s) (lines s) (items s) (graph s) (scenenodes s) (connections s)
    (next_ref s) (log s ++ [m]).

(** [c.connections] *)
Definition connections_of (s : Scene) (c : Connection) : gmap string Edge :=
  default ∅ (connections s !! conn_id c).

(** [c.connections.values()] *)
Definition connection_edges (s : Scene) (c : Connection) : list Edge :=
  (map_to_list (connections_of s c)).*2.

(** Modelled from the spec: [core.Graph.removeEdge] (GraphModel.removeEdge),
    whose source is not among the files. The spec: fails with NotFound if
    absent; otherwise unregisters from both endpoint Terminals and removes
    from the edge map. The result is the truth value the callers test. An
    edge id is registered on the terminals through their [connections]
    dicts; it is dropped from every dict that carries it. What the graph
    notifies on a deletion, and what the scene does with the widget of the
    edge on that notification, is not modelled: the properties below that
    state that the items of the scene or [scenenodes] are left as they were
    are stated for the paths that do not call [removeEdge]. *)
Definition removeEdge (s : Scene) (id : string) : bool * Scene :=
  if has_edge (graph s) id then
    (true,
     set_connections (delete id <$> connections s)
       (set_graph (mkGraph (delete id (dagnodes (graph s)))) s))
  else (false, s).

(** Modelled from the spec: [node_widgets.Edge.disconnect_terminal], whose
    source is not among the files. The spec: disconnect the edge from the
    endpoint. The edge is dropped from the [connections] dict of the given
    terminal; the result is true when it was registered there. *)
Definition disconnect_terminal (s : Scene) (e : Edge) (c : Connection) : bool * Scene :=
  match connections_of s c !! edge_id e with
  | Some _ =>
      (true,
       set_connections (alter (delete (edge_id e)) (conn_id c) (connections s)) s)
  | None => (false, s)
  end.

(** Modelled from the spec: [node_widgets.Edge.connect_terminal], whose
    source is not among the files. The spec: the edge widget is bound to
    both terminal widgets. The edge is entered in the [connections] dict of
    the terminal under its id. *)
Definition connect_terminal (s : Scene) (e : Edge) (c : Connection) : bool * Scene :=
  (true,
   set_connections
     (<[conn_id c := <[edge_id e := e]> (connections_of s c)]> (connections s)) s).

(** Modelled from the spec: [node_widgets.Edge.getLine], whose source is not
    among the files; it follows [LineClass.getLine] of nodes.py: from the
    centre of the start terminal to the centre of the end terminal. *)
Definition Edge_getLine (e : Edge) : QLineF :=
  (conn_center (source_item e), conn_center (dest_item e)).

Definition is_line (r : ref) (i : Item) : bool :=
  match i with
  | ILine r' => Pos.eqb r' r
  | _ => false
  end.

(** [self.addItem(QGraphicsLineItem(seg))] followed by [self.line = ...]. *)
Definition new_line (seg : QLineF) (s : Scene) : Scene :=
  let r := next_ref s in
  mkScene (Some r) (<[r := seg]> (lines s)) (ILine r :: items s) (graph s)
    (scenenodes s) (connections s) (Pos.succ r) (log s).

(** [self.removeItem(line)] *)
Definition removeItem_line (r : ref) (s : Scene) : Scene :=
  set_items (filter (λ i, is_line r i = false) (items s)) s.

(** [self.line.line()] *)
Definition line_segment (s : Scene) (r : ref) : QLineF :=
  default ((0, 0), (0, 0))%Z (lines s !! r).

(** [if len(xs) and xs[0] == self.line: xs.pop(0)] *)
Definition drop_line (r : ref) (xs : list Item) : list Item :=
  match xs with
  | i :: rest => if is_line r i then rest else xs
  | [] => []
  end.

Definition force_remove (s : Scene) (edge : Edge) : Scene :=
  let s1 := say (WarnForcing (edge_name edge)) s in
  let '(ok, s2) := removeEdge s1 (edge_id edge) in
  if ok then s2 else say (WarnRemovalFailed (edge_name edge)) s2.

(** [GraphicsScene.validateConnection]. Ids are strings, so [str] is the
    identity on them. *)
Definition validateConnection (s : Scene) (src dest : Item) (force : bool) : bool * Scene :=
  match line s with
  | Some _ =>
      match src, dest with
      | IConnection src, IConnection dest =>
          if isInputConnection src || isOutputConnection dest then
            (false, say PrintInvalidOrder s)
          else if String.eqb (conn_dagnode src) (conn_dagnode dest) then
            (false, say PrintSameNode s)
          else
            match is_connectable dest with
            | Some false =>
                if negb force then
                  (false, say (WarnNotConnectable (connection_name dest)) s)
                else
                  (true, fold_left force_remove (connection_edges s dest) s)
            | _ => (true, s)
            end
      | _, _ => (false, say PrintWrongType s)
      end
  | None => (true, s)
  end.

Inductive exn :=
  | GraphException (dag_id : string)
  | AttributeError (obj attr : string).

Inductive result (A : Type) :=
  | Ok (a : A) (s : Scene)
  | Raise (e : exn) (s : Scene).
Arguments Ok {A} a s.
Arguments Raise {A} e s.

(** [node.dagnode.name] *)
Definition widget_name (w : Widget) : string :=
  match w with
  | WNode n => node_name n
  | WEdge e => edge_name e
  end.

(** [GraphicsScene.getNode]: by id, then by name; falls off the end, that is
    returns [None], when there is no such widget. *)
Definition getNode (s : Scene) (nm : string) : option Widget :=
  match scenenodes s !! nm with
  | Some w => Some w
  | None =>
      match List.find (λ kw, String.eqb (widget_name (snd kw)) nm)
              (map_to_list (scenenodes s)) with
      | Some kw => Some (snd kw)
      | None => None
      end
  end.

Definition find_connection (nm : string) (cs : list Connection) : option Connection :=
  List.find (λ c, String.eqb (conn_name c) nm) cs.

(** [w.getOutputConnection(attr)] on what [getNode] returned: only a node
    widget has the method. *)
Definition getOutputConnection (w : option Widget) (attr : string) : exn + option Connection :=
  match w with
  | Some (WNode n) => inr (find_connection attr (outputs n))
  | Some (WEdge _) => inl (AttributeError "Edge" "getOutputConnection")
  | None => inl (AttributeError "NoneType" "getOutputConnection")
  end.

Definition getInputConnection (w : option Widget) (attr : string) : exn + option Connection :=
  match w with
  | Some (WNode n) => inr (find_connection attr (inputs n))
  | Some (WEdge _) => inl (AttributeError "Edge" "getInputConnection")
  | None => inl (AttributeError "NoneType" "getInputConnection")
  end.

Section Handlers.

(** [QGraphicsScene.items(pos)]: the items under a point, topmost first,
    given the scene's items and the segments of its lines. *)
Variable items_at : list Item → gmap ref QLineF → QPointF → list Item.

(** [core.Graph.addEdge(src_dag, dest_dag, src_attr, dest_attr)], whose
    source is not among the files: its effect on the graph. What else the
    call brings about (the registration of the edge on the terminals, the
    widget of the new edge) is not modelled: the properties below that
    follow a call of [addEdge] speak of the graph and of [self.line]
    only. *)
Variable addEdge : Graph → string → string → string → string → Graph.

(** [node_widgets.Node(dag)], whose source is not among the files. *)
Variable Node_init : string → string → Node.

(** [self.itemAt(pos)] *)
Definition itemAt (s : Scene) (pos : QPointF) : option Item :=
  head (items_at (items s) (lines s) pos).

(** The edge branch of [addNodes] for one id. *)
Definition addEdgeWidget (s : Scene) (id src_id dest_id src_attr dest_attr : string)
    (widgets : list Widget) : result (list Widget) :=
  let src_widget := getNode s src_id in
  let dest_widget := getNode s dest_id in
  match getOutputConnection src_widget src_attr with
  | inl e => Raise e s
  | inr src_conn_widget =>
      match getInputConnection dest_widget dest_attr with
      | inl e => Raise e s
      | inr dest_conn_widget =>
          match src_conn_widget, dest_conn_widget with
          | Some sc, Some dc =>
              let widget := mkEdge id id sc dc in
              let '(ok1, s1) := connect_terminal s widget sc in
              if ok1 then
                let '(ok2, s2) := connect_terminal s1 widget dc in
                if ok2 then
                  Ok (widgets ++ [WEdge widget])%list
                    (set_items (IEdge widget :: items s2)
                       (set_scenenodes (<[id := WEdge widget]> (scenenodes s2)) s2))
                else Ok widgets s2
              else Ok widgets s1
          | _, _ => Ok widgets s
          end
      end
  end.

Fixpoint addNodes_loop (s : Scene) (dagids : list string) (widgets : list Widget)
    : result (list Widget) :=
  match dagids with
  | [] => Ok widgets s
  | dag_id :: rest =>
      match dagnodes (graph s) !! dag_id with
      | None => addNodes_loop s rest widgets
      | Some (DagNode id nm) =>
          match scenenodes s !! dag_id with
          | Some _ => addNodes_loop s rest widgets
          | None =>
              let widget := Node_init id nm in
              addNodes_loop
                (set_items (INode widget :: items s)
                   (set_scenenodes (<[id := WNode widget]> (scenenodes s)) s))
                rest (widgets ++ [WNode widget])%list
          end
      | Some (DagEdge id src_id dest_id src_attr dest_attr) =>
          match scenenodes s !! dag_id with
          | Some _ => addNodes_loop s rest widgets
          | None =>
              match addEdgeWidget s id src_id dest_id src_attr dest_attr widgets with
              | Ok widgets' s' => addNodes_loop s' rest widgets'
              | Raise e s' => Raise e s'
              end
          end
      | Some (DagOther _) => Raise (GraphException dag_id) s
      end
  end.

(** [GraphicsScene.addNodes], on a list of ids. *)
Definition addNodes (s : Scene) (dagids : list string) : result (list Widget) :=
  addNodes_loop (say (DebugAdding (length dagids)) s) dagids [].

(** [GraphicsScene.mousePressEvent]; the two direction tests are two
    separate [if]s. The call of the base class handler is Qt's. *)
Definition mousePressEvent (s : Scene) (event : MouseEvent) : Scene :=
  let item := itemAt s (scenePos event) in
  match button event with
  | LeftButton =>
      match item with
      | Some (IConnection item) =>
          let s1 :=
            if isOutputConnection item
            then new_line (scenePos event, scenePos event) s
            else s in
          if isInputConnection item then
            match connection_edges s1 item with
            | [conn_edge] =>
                let '(ok, s2) := disconnect_terminal s1 conn_edge item in
                if ok then
                  let '(_, s3) := removeEdge s2 (edge_id conn_edge) in
                  let edge_line := Edge_getLine conn_edge in
                  new_line (p1 edge_line, scenePos event) s3
                else s2
            | _ => s1
            end
          else s1
      | _ => s
      end
  | _ => s
  end.

(** [GraphicsScene.mouseMoveEvent] *)
Definition mouseMoveEvent (s : Scene) (event : MouseEvent) : Scene :=
  match line s with
  | Some r =>
      set_lines (<[r := (p1 (line_segment s r), scenePos event)]> (lines s)) s
  | None => s
  end.

(** [GraphicsScene.mouseReleaseEvent]. The [return] inside the handler
    leaves it before [self.line = None]. *)
Definition mouseReleaseEvent (s : Scene) (event : MouseEvent) : Scene :=
  match line s with
  | Some r =>
      let source_items :=
        drop_line r (items_at (items s) (lines s) (p1 (line_segment s r))) in
      let dest_items :=
        drop_line r (items_at (items s) (lines s) (p2 (line_segment s r))) in
      let s1 := removeItem_line r s in
      match source_items, dest_items with
      | source_conn :: _, dest_conn :: _ =>
          match source_conn, dest_conn with
          | IConnection sc, IConnection dc =>
              let '(ok, s2) := validateConnection s1 source_conn dest_conn true in
              if ok then
                set_line None
                  (set_graph
                     (addEdge (graph s2) (conn_dagnode sc) (conn_dagnode dc)
                        (conn_name sc) (conn_name dc)) s2)
              else set_line None s2
          | _, _ => s1
          end
      | _, _ => set_line None s1
      end
  | None => set_line None s
  end.

(** Whether a connection widget is among the items under a point. *)
Definition is_connection (i : Item) : bool :=
  match i with
  | IConnection _ => true
  | _ => false
  end.

Definition connection_under (s : Scene) (pos : QPointF) : bool :=
  existsb is_connection (items_at (items s) (lines s) pos).

(** Whether the line being drawn has a connection widget under its first
    end and another under its second end. *)
Definition connection_under_both_ends (s : Scene) : bool :=
  match line s with
  | Some r =>
      connection_under s (p1 (line_segment s r))
      && connection_under s (p2 (line_segment s r))
  | None => false
  end.

(** The move events of one drag, in order. *)
Definition mouseMoveEvents (s : Scene) (events : list MouseEvent) : Scene :=
  fold_left mouseMoveEvent events s.

(** Whether a press is the one that detaches: made with the left button on
    a connection widget that is an input and carries exactly one edge. *)
Definition detaching_press (s : Scene) (event : MouseEvent) : bool :=
  match button event, itemAt s (scenePos event) with
  | LeftButton, Some (IConnection item) =>
      isInputConnection item
      && match connection_edges s item with
         | [_] => true
         | _ => false
         end
  | _, _ => false
  end.

(** The two connection widgets that a release hands to validation: the top
    items under the two ends of the line, the line itself apart, when both
    are connection widgets. *)
Definition release_pair (s : Scene) : option (Connection * Connection) :=
  match line s with
  | Some r =>
      match drop_line r (items_at (items s) (lines s) (p1 (line_segment s r))),
            drop_line r (items_at (items s) (lines s) (p2 (line_segment s r))) with
      | IConnection sc :: _, IConnection dc :: _ => Some (sc, dc)
      | _, _ => None
      end
  | None => None
  end.

(** Whether a release ends without a connection: validation is not reached,
    or the pair fails the direction test or the same-node test (the release
    always validates with [force]). *)
Definition release_rejects (s : Scene) : bool :=
  match release_pair s with
  | Some (sc, dc) =>
      isInputConnection sc || isOutputConnection dc
      || String.eqb (conn_dagnode sc) (conn_dagnode dc)
  | None => true
  end.

End Handlers.

Definition widget_item (w : Widget) : Item :=
  match w with
  | WNode n => INode n
  | WEdge e => IEdge e
  end.

(** [GraphicsScene.getNodes] *)
Definition getNodes (s : Scene) : list Node :=
  omap (λ i, match i with INode n => Some n | _ => None end) (items s).

(** [GraphicsScene.getEdges] *)
Definition getEdges (s : Scene) : list Edge :=
  omap (λ i, match i with IEdge e => Some e | _ => None end) (items s).

(** [GraphicsScene.initialize]: a new [scenenodes] dict and [self.clear()];
    nothing else is reset. *)
Definition initialize (s : Scene) : Scene :=
  set_items [] (set_scenenodes ∅ s).

(** Every registered widget is an item of the scene. *)
Definition registered_shown (s : Scene) : Prop :=
  ∀ k w, scenenodes s !! k = Some w → In (widget_item w) (items s).

(** The ids that the loop of [addNodes] passes over: not in
    [graph.dagnodes], or a node or an edge of the graph that is already in
    [scenenodes]. *)
Definition skipped (s : Scene) (id : string) : Prop :=
  match dagnodes (graph s) !! id with
  | None => True
  | Some (DagOther _) => False
  | Some _ => is_Some (scenenodes s !! id)
  end.

(** [QGraphicsView.ViewportUpdateMode] *)
Inductive ViewportUpdateMode :=
  | FullViewportUpdate
  | MinimalViewportUpdate
  | SmartViewportUpdate
  | NoViewportUpdate
  | BoundingRectViewportUpdate.

(** The getter of [GraphicsView.viewport_mode]: [None] is the bare
    [return]. *)
Definition viewport_mode (mode : ViewportUpdateMode) : option string :=
  match mode with
  | FullViewportUpdate => Some "full"
  | SmartViewportUpdate => Some "smart"
  | MinimalViewportUpdate => Some "minimal"
  | _ => None
  end.

(** The setter of [GraphicsView.viewport_mode], given a string or a mode:
    the three names are replaced by their modes and the value is handed to
    [setViewportUpdateMode], which does not take a string ([None]: the
    [TypeError] it raises). *)
Definition set_viewport_mode (mode : string + ViewportUpdateMode)
    : option ViewportUpdateMode :=
  let mode1 :=
    match mode with
    | inl nm => if String.eqb nm "full" then inr FullViewportUpdate else mode
    | inr _ => mode
    end in
  let mode2 :=
    match mode1 with
    | inl nm => if String.eqb nm "smart" then inr SmartViewportUpdate else mode1
    | inr _ => mode1
    end in
  let mode3 :=
    match mode2 with
    | inl nm => if String.eqb nm "minimal" then inr MinimalViewportUpdate else mode2
    | inr _ => mode2
    end in
  match mode3 with
  | inr m => Some m
  | inl _ => None
  end.

End Graphics.

(* ------------------------------------------------------------------ *)
(** ** Concrete scenes *)
(* ------------------------------------------------------------------ *)

Module NodesExamples.
Import Nodes.

(** Two nodes: [A] with the output [out], [B] with the input [in], and a
    plain connection [C.any] that is neither; the line item 3 is in the
    scene. *)
Definition heap0 : Heap :=
  mkHeap
    (<[1%positive := NodeOutput_init "A" "out" (0, 0)%Z]>
       (<[2%positive := NodeInput_init "B" "in" (10, 0)%Z]>
          (<[4%positive := ConnectionNode_init "C" "any" (5, 5)%Z]> ∅)))
    [3%positive] ∅.

Definition line0 : LineClass :=
  mkLineClass 3%positive "A.out.B.in" 1%positive 2%positive (0, 0)%Z (10, 0)%Z.

(** A line drawn from the input of [B] back to that same input. *)
Definition loop0 : LineClass :=
  mkLineClass 3%positive "B.in.B.in" 2%positive 2%positive (10, 0)%Z (10, 0)%Z.

End NodesExamples.

Module GraphicsExamples.
Import Graphics.
Local Open Scope positive_scope.

(** Terminals: [A.out], [D.out], [B.out] and [C.out] are outputs; [B.in] is an
    input that is not connectable, [A.in] and [C.in] are connectable inputs;
    [C.any] answers false to both direction tests. *)
Definition A_out : Connection :=
  mkConnection 1 "out" "A.out" "A" false true None (0, 0)%Z.
Definition B_in : Connection :=
  mkConnection 2 "in" "B.in" "B" true false (Some false) (10, 0)%Z.
Definition A_in : Connection :=
  mkConnection 3 "in" "A.in" "A" true false (Some true) (0, 5)%Z.
Definition D_out : Connection :=
  mkConnection 4 "out" "D.out" "D" false true None (0, 10)%Z.
Definition C_any : Connection :=
  mkConnection 5 "any" "C.any" "C" false false None (5, 5)%Z.
Definition B_out : Connection :=
  mkConnection 6 "out" "B.out" "B" false true None (10, 5)%Z.
Definition C_in : Connection :=
  mkConnection 7 "in" "C.in" "C" true false (Some true) (5, 0)%Z.

Definition node_A : Node := mkNode "A" "A" [A_in] [A_out].
Definition node_B : Node := mkNode "B" "B" [B_in] [B_out].
Definition node_D : Node := mkNode "D" "D" [] [D_out].

(** The edge [D.out -> B.in]. *)
Definition edge1 : Edge := mkEdge "e1" "e1" D_out B_in.

Definition graph1 : Graph :=
  mkGraph
    (<["A" := DagNode "A" "A"]>
       (<["B" := DagNode "B" "B"]>
          (<["D" := DagNode "D" "D"]>
             (<["e1" := DagEdge "e1" "D" "B" "out" "in"]> ∅)))).

Definition widgets1 : gmap string Widget :=
  <["A" := WNode node_A]>
    (<["B" := WNode node_B]>
       (<["D" := WNode node_D]> (<["e1" := WEdge edge1]> ∅))).

Definition connections1 : gmap ref (gmap string Edge) :=
  <[2%positive := {[ "e1" := edge1 ]}]>
    (<[4%positive := {[ "e1" := edge1 ]}]> ∅).

Definition items1 : list Item :=
  [IEdge edge1; IConnection A_out; IConnection A_in; IConnection B_in;
   IConnection B_out; IConnection D_out; IConnection C_any; IConnection C_in;
   INode node_A; INode node_B; INode node_D].

(** Nothing is being drawn. *)
Definition idle1 : Scene :=
  mkScene None ∅ items1 graph1 widgets1 connections1 100 [].

(** A line, item 100, is being drawn from [A.out] at (0,0); its free end is
    at (50,50), over the body of a node. *)
Definition drawing1 : Scene :=
  mkScene (Some 100%positive) {[ 100%positive := ((0, 0), (50, 50))%Z ]}
    (ILine 100 :: items1) graph1 widgets1 connections1 101 [].

(** A toy geometry for [items(pos)]: a connection widget is hit at its
    centre, every node body at (50,50), a line item at either of its ends;
    nothing else is hit. *)
Definition point_eqb (p q : QPointF) : bool :=
  (Z.eqb (fst p) (fst q) && Z.eqb (snd p) (snd q))%bool.

Definition covers (segs : gmap ref QLineF) (pos : QPointF) (i : Item) : bool :=
  match i with
  | IConnection c => point_eqb (conn_center c) pos
  | INode _ => point_eqb (50, 50)%Z pos
  | ILine r =>
      match segs !! r with
      | Some seg => (point_eqb (p1 seg) pos || point_eqb (p2 seg) pos)%bool
      | None => false
      end
  | _ => false
  end.

Definition items_at1 (its : list Item) (segs : gmap ref QLineF) (pos : QPointF)
    : list Item :=
  List.filter (covers segs pos) its.

Definition addEdge1 (g : Graph) (src dest src_attr dest_attr : string) : Graph :=
  mkGraph (<["e2" := DagEdge "e2" src dest src_attr dest_attr]> (dagnodes g)).

Definition Node_init1 (id nm : string) : Node := mkNode id nm [] [].

(** A graph that knows the edge [e9] from node [X] to node [Y], in a scene
    where no widget has been registered yet. *)
Definition dangling1 : Scene :=
  mkScene None ∅ []
    (mkGraph (<["e9" := DagEdge "e9" "X" "Y" "out" "in"]> ∅)) ∅ ∅ 1 [].

End GraphicsExamples.

Module MoreExamples.
Import Nodes NodesExamples.
Local Open Scope positive_scope.

(** The line made by [LineClass(B.in, A.out)]: the items are swapped. *)
Definition line_rev0 : LineClass :=
  mkLineClass 3 "B.in.A.out" 1 2 (10, 0)%Z (0, 0)%Z.

(** [line0] after one [updatePosition], and after the [deleteNode] that
    follows it. *)
Definition heap1 : Heap := updatePosition heap0 line0.

Definition heap2 : Heap :=
  match deleteNode heap1 line0 with
  | Done h => h
  | Raised _ h => h
  end.

(** Two inputs, [A.in] and [B.in], and no other terminal. *)
Definition heap_inputs : Heap :=
  mkHeap
    (<[1 := NodeInput_init "A" "in" (0, 0)%Z]>
       (<[2 := NodeInput_init "B" "in" (10, 0)%Z]> ∅))
    [] ∅.

End MoreExamples.

Module GraphicsMore.
Import Graphics GraphicsExamples.
Local Open Scope positive_scope.

Definition press_B_in : MouseEvent := mkMouseEvent (10, 0)%Z LeftButton.
Definition press_A_out : MouseEvent := mkMouseEvent (0, 0)%Z LeftButton.
Definition move_to (x y : Z) : MouseEvent := mkMouseEvent (x, y) NoButton.
Definition release_at (x y : Z) : MouseEvent := mkMouseEvent (x, y) LeftButton.

(** [drawing1] with no edge registered on any terminal. *)
Definition drawing2 : Scene := set_connections ∅ drawing1.

(** A line, item 100, drawn from [A.out] at (0,0) to [C.in] at (5,0). *)
Definition drawing3 : Scene :=
  mkScene (Some 100) {[ 100 := ((0, 0), (5, 0))%Z ]}
    (ILine 100 :: items1) graph1 widgets1 connections1 101 [].

(** The graph of [graph1] with no widget registered yet. *)
Definition fresh1 : Scene := mkScene None ∅ [] graph1 ∅ ∅ 1 [].

(** A graph with the node [A] and an object [x] that is neither a node nor
    an edge; no widget registered. *)
Definition mixed1 : Scene :=
  mkScene None ∅ []
    (mkGraph (<["A" := DagNode "A" "A"]> (<["x" := DagOther "x"]> ∅)))
    ∅ ∅ 1 [].

(** [mixed1] once the loop of [addNodes] has handled the id [A] of the
    batch [A, x, A]. *)
Definition mixed1_after_A : Scene :=
  match addNodes_loop Node_init1 (say (DebugAdding 3) mixed1) ["A"] [] with
  | Ok _ s' => s'
  | Raise _ s' => s'
  end.

End GraphicsMore.

(* ------------------------------------------------------------------ *)
(** ** Properties of src/core/nodes.py *)
(* ------------------------------------------------------------------ *)

Lemma occurrences_app x xs ys :
  occurrences x (xs ++ ys) = occurrences x xs + occurrences x ys.
Proof.
  induction xs as [|y xs IH]; simpl; [reflexivity|].
  rewrite IH. lia.
Qed.



Section NodesFacts.
Import Nodes.








End NodesFacts.


Section NodesClaims.
Import Nodes NodesExamples MoreExamples.

(** C9, as amended. Constructing a line from [startItem] to [endItem]
    where [startItem] is an input connection swaps the endpoints: the stored start item is the
    original end item and the stored end item is the original start item,
    which is an input. When the other endpoint is not an input, the stored
    line therefore runs from the non-input endpoint to the input endpoint,
    and constructing the line the other way round (dragging from the
    non-input end) stores the same orientation. *)
Theorem LineClass_init_swaps_input_start
    (h : Heap) (self startItem endItem : ref) (s e : ConnectionNode) :
  terminals h !! startItem = Some s →
  terminals h !! endItem = Some e →
  isInputConnection s = true →
  ∃ l, LineClass_init h self startItem endItem = Some l ∧
       myStartItem l = endItem ∧
       myEndItem l = startItem ∧
       (isInputConnection <$> terminals h !! myEndItem l) = Some true ∧
       (isInputConnection e = false →
          (isInputConnection <$> terminals h !! myStartItem l) = Some false ∧
          ∃ l', LineClass_init h self endItem startItem = Some l' ∧
                myStartItem l' = endItem ∧ myEndItem l' = startItem).
Proof.
  intros Hs He Hin. unfold LineClass_init. rewrite Hs, He, Hin.
  eexists. split; [reflexivity|]. simpl. repeat split.
  - rewrite Hs. simpl. by rewrite Hin.
  - rewrite He. simpl. by f_equal.
  - rewrite H. eexists. split; [reflexivity|]. done.
Qed.

Lemma LineClass_init_swaps_input_start_witness :
  ∃ l, LineClass_init heap0 3%positive 2%positive 1%positive = Some l ∧
       myStartItem l = 1%positive ∧
       myEndItem l = 2%positive ∧
       (isInputConnection <$> terminals heap0 !! myEndItem l) = Some true ∧
       (isInputConnection (NodeOutput_init "A" "out" (0, 0)%Z) = false →
          (isInputConnection <$> terminals heap0 !! myStartItem l) = Some false ∧
          ∃ l', LineClass_init heap0 3%positive 1%positive 2%positive = Some l' ∧
                myStartItem l' = 1%positive ∧ myEndItem l' = 2%positive).
Proof.
  apply (LineClass_init_swaps_input_start heap0 3%positive 2%positive 1%positive
           (NodeInput_init "B" "in" (10, 0)%Z) (NodeOutput_init "A" "out" (0, 0)%Z)).
  - vm_compute. reflexivity.
  - vm_compute. reflexivity.
  - reflexivity.
Defined.

(** C9 as stated fails on two inputs: the swap takes place, but the stored
    line then starts at an input, and which of the two it starts at depends
    on the end the line was drawn from. *)
Lemma LineClass_init_two_inputs_orientation :
  (isInputConnection <$> terminals heap_inputs !! 1%positive) = Some true ∧
  (isInputConnection <$> terminals heap_inputs !! 2%positive) = Some true ∧
  (myStartItem <$> LineClass_init heap_inputs 3%positive 1%positive 2%positive)
    = Some 2%positive ∧
  (myEndItem <$> LineClass_init heap_inputs 3%positive 1%positive 2%positive)
    = Some 1%positive ∧
  (myStartItem <$> LineClass_init heap_inputs 3%positive 2%positive 1%positive)
    = Some 1%positive ∧
  (myEndItem <$> LineClass_init heap_inputs 3%positive 2%positive 1%positive)
    = Some 2%positive.
Proof. repeat split; vm_compute; reflexivity. Qed.




End NodesClaims.

(* ------------------------------------------------------------------ *)
(** ** Properties of the scene: validation *)
(* ------------------------------------------------------------------ *)

Section ValidationFacts.
Import Graphics.

Lemma validateConnection_idle s src dest force :
  line s = None → validateConnection s src dest force = (true, s).
Proof. intros H. unfold validateConnection. rewrite H. reflexivity. Qed.

Lemma has_edge_delete g id id' :
  has_edge (mkGraph (delete id (dagnodes g))) id' =
  if decide (id' = id) then false else has_edge g id'.
Proof.
  unfold has_edge. simpl. destruct (decide (id' = id)) as [->|Hne].
  - rewrite lookup_delete_eq. reflexivity.
  - rewrite lookup_delete_ne by done. reflexivity.
Qed.

(** One forced removal: the edge is out of the graph afterwards, every other
    edge is as before. *)
Lemma force_remove_has_edge s e id :
  has_edge (graph (force_remove s e)) id =
  if decide (id = edge_id e) then false else has_edge (graph s) id.
Proof.
  unfold force_remove, removeEdge. simpl.
  destruct (has_edge (graph s) (edge_id e)) eqn:E; simpl.
  - apply has_edge_delete.
  - destruct (decide (id = edge_id e)) as [->|]; [exact E | reflexivity].
Qed.

Lemma force_remove_line s e : line (force_remove s e) = line s.
Proof.
  unfold force_remove, removeEdge. simpl.
  destruct (has_edge (graph s) (edge_id e)); reflexivity.
Qed.

Lemma force_remove_log_mono s e m : m ∈ log s → m ∈ log (force_remove s e).
Proof.
  intros H. unfold force_remove, removeEdge. simpl.
  destruct (has_edge (graph s) (edge_id e)); simpl; set_solver.
Qed.

Lemma force_remove_log_forcing s e : WarnForcing (edge_name e) ∈ log (force_remove s e).
Proof.
  unfold force_remove, removeEdge. simpl.
  destruct (has_edge (graph s) (edge_id e)); simpl; set_solver.
Qed.

Lemma force_remove_log_failed s e :
  has_edge (graph s) (edge_id e) = false →
  WarnRemovalFailed (edge_name e) ∈ log (force_remove s e).
Proof.
  intros H. unfold force_remove, removeEdge. simpl. rewrite H. simpl. set_solver.
Qed.

Lemma fold_force_remove_has_edge es s id :
  has_edge (graph (fold_left force_remove es s)) id =
  if decide (id ∈ edge_id <$> es) then false else has_edge (graph s) id.
Proof.
  revert s. induction es as [|e es IH]; intros s.
  - cbn [fold_left]. destruct (decide (id ∈ edge_id <$> [])) as [H|_];
      [inversion H | reflexivity].
  - cbn [fold_left]. rewrite IH, force_remove_has_edge.
    destruct (decide (id ∈ edge_id <$> es)) as [Hin|Hnin];
      destruct (decide (id ∈ edge_id <$> e :: es)) as [Hin'|Hnin'];
      destruct (decide (id = edge_id e)) as [Heq|Hne];
      try reflexivity.
    + exfalso. apply Hnin'. rewrite fmap_cons. apply elem_of_cons. auto.
    + exfalso. apply Hnin'. rewrite fmap_cons. apply elem_of_cons. auto.
    + exfalso. rewrite fmap_cons in Hin'.
      apply elem_of_cons in Hin' as [?|?]; contradiction.
    + exfalso. apply Hnin'. rewrite fmap_cons. apply elem_of_cons. auto.
Qed.

Lemma fold_force_remove_log_mono es s m :
  m ∈ log s → m ∈ log (fold_left force_remove es s).
Proof.
  revert s. induction es as [|e es IH]; intros s H; simpl; [exact H|].
  apply IH, force_remove_log_mono, H.
Qed.

Lemma fold_force_remove_log_forcing es s e :
  e ∈ es → WarnForcing (edge_name e) ∈ log (fold_left force_remove es s).
Proof.
  revert s. induction es as [|a es IH]; intros s H; simpl.
  - inversion H.
  - apply elem_of_cons in H as [->|H].
    + apply fold_force_remove_log_mono, force_remove_log_forcing.
    + apply IH, H.
Qed.

Lemma fold_force_remove_log_failed es s e :
  e ∈ es → has_edge (graph s) (edge_id e) = false →
  WarnRemovalFailed (edge_name e) ∈ log (fold_left force_remove es s).
Proof.
  revert s. induction es as [|a es IH]; intros s H Hno; simpl.
  - inversion H.
  - apply elem_of_cons in H as [->|H].
    + apply fold_force_remove_log_mono, force_remove_log_failed, Hno.
    + apply IH; [exact H|]. rewrite force_remove_has_edge, Hno.
      destruct (decide _); reflexivity.
Qed.

Lemma fold_force_remove_line es s : line (fold_left force_remove es s) = line s.
Proof.
  revert s. induction es as [|e es IH]; intros s; simpl; [reflexivity|].
  rewrite IH. apply force_remove_line.
Qed.

End ValidationFacts.

Section ValidationClaims.
Import Graphics GraphicsExamples.

Lemma fold_force_remove_log_appends es : ∀ s,
  ∃ msgs, log (fold_left force_remove es s) = log s ++ msgs
          ∧ ¬ In PrintInvalidOrder msgs.
Proof.
  induction es as [|e es IH]; intros s; cbn [fold_left].
  - exists []. rewrite app_nil_r. split; [reflexivity | intros []].
  - destruct (IH (force_remove s e)) as (msgs & -> & Hno).
    unfold force_remove, removeEdge. simpl.
    destruct (has_edge (graph s) (edge_id e)); simpl.
    + exists (WarnForcing (edge_name e) :: msgs). rewrite <- app_assoc.
      split; [reflexivity|]. intros [H|H]; [discriminate | exact (Hno H)].
    + exists (WarnForcing (edge_name e) :: WarnRemovalFailed (edge_name e) :: msgs).
      rewrite <- !app_assoc. split; [reflexivity|].
      intros [H|[H|H]]; [discriminate | discriminate | exact (Hno H)].
Qed.

(** C2, as amended. While a line is being drawn, a pair of connection
    widgets is rejected with the invalid-order message exactly when the test
    the code makes holds: the source is an input or the destination is an
    output. Validation approves only if the source is not an input and the
    destination is not an output; for terminals that are each exactly one of
    input and output this is: the source is an output and the destination an
    input. A pair that passes the test, in particular one with a terminal
    that is neither input nor output, is not rejected by it: its verdict is
    the verdict of the same-node and connectable tests alone, and the
    invalid-order message is not among what the call prints. *)
Theorem validateConnection_direction
    (s : Scene) (src dest : Connection) (force : bool) :
  line s ≠ None →
  (validateConnection s (IConnection src) (IConnection dest) force
     = (false, say PrintInvalidOrder s)
   ↔ isInputConnection src || isOutputConnection dest = true) ∧
  (fst (validateConnection s (IConnection src) (IConnection dest) force) = true →
   isInputConnection src = false ∧ isOutputConnection dest = false) ∧
  (isOutputConnection src = negb (isInputConnection src) →
   isInputConnection dest = negb (isOutputConnection dest) →
   fst (validateConnection s (IConnection src) (IConnection dest) force) = true →
   isOutputConnection src = true ∧ isInputConnection dest = true) ∧
  (isInputConnection src || isOutputConnection dest = false →
   fst (validateConnection s (IConnection src) (IConnection dest) force)
     = negb (String.eqb (conn_dagnode src) (conn_dagnode dest))
       && match is_connectable dest with
          | Some false => force
          | _ => true
          end ∧
   ∃ msgs,
     log (snd (validateConnection s (IConnection src) (IConnection dest) force))
       = log s ++ msgs
     ∧ ¬ In PrintInvalidOrder msgs).
Proof.
  intros Hline.
  assert (Hsay : ∀ m, m ≠ PrintInvalidOrder →
            (false, say m s) ≠ (false, say PrintInvalidOrder s)).
  { intros m Hm [= H]. apply app_inv_head in H. congruence. }
  assert (Hone : ∀ m, m ≠ PrintInvalidOrder →
            ∃ msgs, log (say m s) = log s ++ msgs ∧ ¬ In PrintInvalidOrder msgs).
  { intros m Hm. exists [m]. split; [reflexivity|]. intros [H|[]]. congruence. }
  assert (Hnone : ∃ msgs, log s = log s ++ msgs ∧ ¬ In PrintInvalidOrder msgs).
  { exists []. rewrite app_nil_r. split; [reflexivity | intros []]. }
  split; [|split; [|split]].
  - unfold validateConnection.
    destruct (line s) as [r|]; [clear Hline | contradiction].
    destruct (isInputConnection src || isOutputConnection dest) eqn:Ed;
      [split; reflexivity|].
    split; [|discriminate]. intros H. exfalso. revert H.
    destruct (String.eqb _ _); [apply Hsay; discriminate|].
    destruct (is_connectable dest) as [[|]|]; try discriminate.
    destruct force; simpl; [discriminate | apply Hsay; discriminate].
  - unfold validateConnection.
    destruct (line s) as [r|]; [clear Hline | contradiction].
    destruct (isInputConnection src), (isOutputConnection dest); simpl;
      intros; auto; discriminate.
  - unfold validateConnection.
    destruct (line s) as [r|]; [clear Hline | contradiction].
    destruct (isInputConnection src), (isOutputConnection dest); simpl;
      intros -> -> ?; auto; discriminate.
  - intros Hd. unfold validateConnection.
    destruct (line s) as [r|]; [clear Hline | contradiction].
    rewrite Hd.
    destruct (String.eqb _ _); cbn [negb andb fst snd].
    { split; [reflexivity | apply Hone; discriminate]. }
    destruct (is_connectable dest) as [[|]|]; cbn [fst snd];
      try (split; [reflexivity | exact Hnone]).
    destruct force; cbn [negb fst snd].
    + split; [reflexivity | apply fold_force_remove_log_appends].
    + split; [reflexivity | apply Hone; discriminate].
Qed.

Lemma validateConnection_direction_witness :
  (validateConnection drawing1 (IConnection B_in) (IConnection A_out) true
     = (false, say PrintInvalidOrder drawing1)
   ↔ isInputConnection B_in || isOutputConnection A_out = true) ∧
  (fst (validateConnection drawing1 (IConnection B_in) (IConnection A_out) true) = true →
   isInputConnection B_in = false ∧ isOutputConnection A_out = false) ∧
  (isOutputConnection B_in = negb (isInputConnection B_in) →
   isInputConnection A_out = negb (isOutputConnection A_out) →
   fst (validateConnection drawing1 (IConnection B_in) (IConnection A_out) true) = true →
   isOutputConnection B_in = true ∧ isInputConnection A_out = true) ∧
  (isInputConnection B_in || isOutputConnection A_out = false →
   fst (validateConnection drawing1 (IConnection B_in) (IConnection A_out) true)
     = negb (String.eqb (conn_dagnode B_in) (conn_dagnode A_out))
       && match is_connectable A_out with
          | Some false => true
          | _ => true
          end ∧
   ∃ msgs,
     log (snd (validateConnection drawing1 (IConnection B_in) (IConnection A_out) true))
       = log drawing1 ++ msgs
     ∧ ¬ In PrintInvalidOrder msgs).
Proof.
  apply (validateConnection_direction drawing1 B_in A_out true).
  simpl. discriminate.
Defined.

(** C2 as stated fails: with a line being drawn, the pair ([C.any], [A.in]),
    whose source is neither an input nor an output, is approved, and nothing
    is printed. *)
Lemma validateConnection_approves_undirected_source :
  isInputConnection C_any = false ∧
  isOutputConnection C_any = false ∧
  line drawing1 ≠ None ∧
  validateConnection drawing1 (IConnection C_any) (IConnection A_in) true
    = (true, drawing1).
Proof. repeat split. simpl. discriminate. Qed.

(** C3, as amended. For a validation call made while a line is being drawn,
    on a pair that passes the direction test and the same-node test, with a
    destination whose [is_connectable] is false: without [force] the call
    rejects with the not-connectable warning and leaves the graph as it was;
    with [force] it approves, it asks the graph to remove every edge
    attached to the destination, none of these edges is in the graph
    afterwards, every other edge is as before, each removal is announced,
    and a removal that fails is logged without stopping the others. *)
Theorem validateConnection_not_connectable
    (s : Scene) (src dest : Connection) :
  line s ≠ None →
  isInputConnection src = false →
  isOutputConnection dest = false →
  conn_dagnode src ≠ conn_dagnode dest →
  is_connectable dest = Some false →
  validateConnection s (IConnection src) (IConnection dest) false
    = (false, say (WarnNotConnectable (connection_name dest)) s) ∧
  graph (snd (validateConnection s (IConnection src) (IConnection dest) false))
    = graph s ∧
  fst (validateConnection s (IConnection src) (IConnection dest) true) = true ∧
  (∀ e, e ∈ connection_edges s dest →
     has_edge (graph (snd (validateConnection s (IConnection src) (IConnection dest) true)))
       (edge_id e) = false ∧
     WarnForcing (edge_name e)
       ∈ log (snd (validateConnection s (IConnection src) (IConnection dest) true)) ∧
     (has_edge (graph s) (edge_id e) = false →
      WarnRemovalFailed (edge_name e)
        ∈ log (snd (validateConnection s (IConnection src) (IConnection dest) true)))) ∧
  (∀ id, id ∉ edge_id <$> connection_edges s dest →
     has_edge (graph (snd (validateConnection s (IConnection src) (IConnection dest) true))) id
       = has_edge (graph s) id).
Proof.
  intros Hline Hi Ho Hne Hc. unfold validateConnection.
  destruct (line s) as [r|]; [clear Hline | contradiction].
  rewrite Hi, Ho, Hc. simpl.
  destruct (String.eqb_spec (conn_dagnode src) (conn_dagnode dest)) as [Heq|_];
    [contradiction|].
  simpl. repeat split.
  - rewrite fold_force_remove_has_edge.
    rewrite decide_True; [reflexivity|]. apply list_elem_of_fmap. eauto.
  - apply fold_force_remove_log_forcing. assumption.
  - intros Hno. apply fold_force_remove_log_failed; assumption.
  - intros id Hid. rewrite fold_force_remove_has_edge.
    rewrite decide_False by exact Hid. reflexivity.
Qed.

Lemma validateConnection_not_connectable_witness :
  validateConnection drawing1 (IConnection A_out) (IConnection B_in) false
    = (false, say (WarnNotConnectable (connection_name B_in)) drawing1) ∧
  graph (snd (validateConnection drawing1 (IConnection A_out) (IConnection B_in) false))
    = graph drawing1 ∧
  fst (validateConnection drawing1 (IConnection A_out) (IConnection B_in) true) = true ∧
  (∀ e, e ∈ connection_edges drawing1 B_in →
     has_edge (graph (snd (validateConnection drawing1 (IConnection A_out) (IConnection B_in) true)))
       (edge_id e) = false ∧
     WarnForcing (edge_name e)
       ∈ log (snd (validateConnection drawing1 (IConnection A_out) (IConnection B_in) true)) ∧
     (has_edge (graph drawing1) (edge_id e) = false →
      WarnRemovalFailed (edge_name e)
        ∈ log (snd (validateConnection drawing1 (IConnection A_out) (IConnection B_in) true)))) ∧
  (∀ id, id ∉ edge_id <$> connection_edges drawing1 B_in →
     has_edge (graph (snd (validateConnection drawing1 (IConnection A_out) (IConnection B_in) true))) id
       = has_edge (graph drawing1) id).
Proof.
  apply (validateConnection_not_connectable drawing1 A_out B_in).
  - simpl. discriminate.
  - reflexivity.
  - reflexivity.
  - simpl. discriminate.
  - reflexivity.
Defined.

(** C3 as stated fails on calls that never reach the connectable test.
    [B.in] is not connectable and carries the edge [e1]. With a line being
    drawn, the forced call on the same-node pair ([B.out], [B.in]) rejects and
    [e1] stays in the graph; with no line being drawn, the unforced call on
    ([A.out], [B.in]) approves. *)
Lemma validateConnection_not_connectable_unreached :
  is_connectable B_in = Some false ∧
  connection_edges drawing1 B_in = [edge1] ∧
  validateConnection drawing1 (IConnection B_out) (IConnection B_in) true
    = (false, say PrintSameNode drawing1) ∧
  has_edge (graph (say PrintSameNode drawing1)) (edge_id edge1) = true ∧
  connection_edges idle1 B_in = [edge1] ∧
  validateConnection idle1 (IConnection A_out) (IConnection B_in) false
    = (true, idle1).
Proof. repeat split; vm_compute; reflexivity. Qed.

(** C4, as amended. A validation call on a pair of connection widgets that
    is rejected by the direction test the code makes (the source is an input
    or the destination is an output) or by the same-node test removes
    nothing: the graph and the [connections] of every terminal are as before
    the call, whatever [force] is, and while a line is being drawn the call
    rejects. For terminals that are each exactly one of input and output,
    failing the direction check as the specification words it (not: source
    an output and destination an input) is failing the code's test, so the
    same holds. *)
Theorem validateConnection_rejects_before_eviction
    (s : Scene) (src dest : Connection) (force : bool) :
  isInputConnection src || isOutputConnection dest = true
  ∨ conn_dagnode src = conn_dagnode dest
  ∨ (isOutputConnection src = negb (isInputConnection src)
     ∧ isInputConnection dest = negb (isOutputConnection dest)
     ∧ isOutputConnection src && isInputConnection dest = false) →
  graph (snd (validateConnection s (IConnection src) (IConnection dest) force))
    = graph s ∧
  connections (snd (validateConnection s (IConnection src) (IConnection dest) force))
    = connections s ∧
  (line s ≠ None →
   fst (validateConnection s (IConnection src) (IConnection dest) force) = false).
Proof.
  intros H.
  assert (H' : isInputConnection src || isOutputConnection dest = true
               ∨ conn_dagnode src = conn_dagnode dest).
  { destruct H as [H|[H|(Hs & Hd & Hf)]]; [left; exact H | right; exact H |].
    left. rewrite Hs, Hd in Hf.
    destruct (isInputConnection src), (isOutputConnection dest);
      simpl in *; congruence. }
  clear H. unfold validateConnection.
  destruct (line s) as [r|]; [|repeat split; congruence].
  destruct (isInputConnection src || isOutputConnection dest) eqn:Ed;
    [repeat split|].
  destruct H' as [H|H]; [discriminate|].
  rewrite H, String.eqb_refl. repeat split.
Qed.

Lemma validateConnection_rejects_before_eviction_witness :
  graph (snd (validateConnection drawing1 (IConnection B_out) (IConnection B_in) true))
    = graph drawing1 ∧
  connections (snd (validateConnection drawing1 (IConnection B_out) (IConnection B_in) true))
    = connections drawing1 ∧
  (line drawing1 ≠ None →
   fst (validateConnection drawing1 (IConnection B_out) (IConnection B_in) true) = false).
Proof.
  apply (validateConnection_rejects_before_eviction drawing1 B_out B_in true).
  right. left. reflexivity.
Defined.

(** C4 as stated fails when the direction check is the specification's
    (source an output and destination an input). With a line being drawn,
    the pair ([C.any], [B.in]) fails that check, its source being neither an
    input nor an output, and is on two different nodes; the code's test lets
    it pass, and the forced call approves and evicts the edge [e1] that
    [B.in] carries. *)
Lemma validateConnection_undirected_source_evicts :
  isOutputConnection C_any && isInputConnection B_in = false ∧
  isInputConnection C_any || isOutputConnection B_in = false ∧
  conn_dagnode C_any ≠ conn_dagnode B_in ∧
  connection_edges drawing1 B_in = [edge1] ∧
  has_edge (graph drawing1) (edge_id edge1) = true ∧
  fst (validateConnection drawing1 (IConnection C_any) (IConnection B_in) true) = true ∧
  has_edge
    (graph (snd (validateConnection drawing1 (IConnection C_any) (IConnection B_in) true)))
    (edge_id edge1) = false.
Proof.
  repeat split; try (vm_compute; reflexivity). vm_compute. discriminate.
Qed.

(** C7, as amended. The verdict depends on the drawing state of the scene
    exactly through whether a line is being drawn: with no line every call
    approves and changes nothing; two calls with the same arguments on two
    scenes that both have a line, or both have none, return the same
    verdict. *)
Theorem validateConnection_verdict_up_to_line
    (s1 s2 : Scene) (src dest : Item) (force : bool) :
  (line s1 = None ↔ line s2 = None) →
  fst (validateConnection s1 src dest force)
    = fst (validateConnection s2 src dest force) ∧
  (line s1 = None → validateConnection s1 src dest force = (true, s1)).
Proof.
  intros H. split; [|apply validateConnection_idle].
  unfold validateConnection.
  destruct (line s1) as [r1|], (line s2) as [r2|].
  - destruct src as [| src | | |], dest as [| dest | | |]; try reflexivity.
    destruct (isInputConnection src || isOutputConnection dest); [reflexivity|].
    destruct (String.eqb _ _); [reflexivity|].
    destruct (is_connectable dest) as [[|]|]; try reflexivity.
    destruct force; reflexivity.
  - destruct H as [_ H]. discriminate (H eq_refl).
  - destruct H as [H _]. discriminate (H eq_refl).
  - reflexivity.
Qed.

Lemma validateConnection_verdict_up_to_line_witness :
  fst (validateConnection drawing1 (IConnection A_out) (IConnection B_in) true)
    = fst (validateConnection (say PrintSameNode drawing1)
             (IConnection A_out) (IConnection B_in) true) ∧
  (line drawing1 = None →
   validateConnection drawing1 (IConnection A_out) (IConnection B_in) true
     = (true, drawing1)).
Proof.
  apply (validateConnection_verdict_up_to_line drawing1 (say PrintSameNode drawing1)
           (IConnection A_out) (IConnection B_in) true).
  simpl. split; discriminate.
Defined.

(** C7 as stated fails: the same arguments, an input as source and an output
    as destination, are approved when no line is being drawn and rejected
    when one is. *)
Lemma validateConnection_verdict_depends_on_line :
  line idle1 = None ∧
  line drawing1 = Some 100%positive ∧
  fst (validateConnection idle1 (IConnection B_in) (IConnection A_out) true) = true ∧
  fst (validateConnection drawing1 (IConnection B_in) (IConnection A_out) true) = false.
Proof. repeat split. Qed.

End ValidationClaims.

(* ------------------------------------------------------------------ *)
(** ** Properties of the scene: press, move, release *)
(* ------------------------------------------------------------------ *)

Section HandlerFacts.
Import Graphics.

Variable items_at : list Item → gmap ref QLineF → QPointF → list Item.
Variable addEdge : Graph → string → string → string → string → Graph.

Lemma connection_edges_singleton s c e :
  connections_of s c = {[edge_id e := e]} → connection_edges s c = [e].
Proof.
  intros H. unfold connection_edges. rewrite H, map_to_list_singleton.
  reflexivity.
Qed.

Lemma connections_of_new_line seg s c :
  connections_of (new_line seg s) c = connections_of s c.
Proof. reflexivity. Qed.

(** After a successful [removeEdge] no terminal carries the edge. *)
Lemma removeEdge_unregisters s id c :
  has_edge (graph s) id = true →
  connections_of (snd (removeEdge s id)) c !! id = None.
Proof.
  intros H. unfold removeEdge. rewrite H. unfold connections_of. simpl.
  rewrite lookup_fmap. destruct (connections s !! conn_id c) as [m|]; simpl.
  - apply lookup_delete_eq.
  - apply lookup_empty.
Qed.

(** What a left press on an input with exactly one registered edge does. *)
Lemma mousePressEvent_detach s event item e :
  button event = LeftButton →
  itemAt items_at s (scenePos event) = Some (IConnection item) →
  isInputConnection item = true →
  connections_of s item = {[edge_id e := e]} →
  ∃ s0,
    graph s0 = graph s ∧
    mousePressEvent items_at s event =
      new_line (conn_center (source_item e), scenePos event)
        (snd (removeEdge (snd (disconnect_terminal s0 e item)) (edge_id e))).
Proof.
  intros Hb Hitem Hin Hc. unfold mousePressEvent. rewrite Hb, Hitem, Hin.
  set (s0 := if isOutputConnection item then _ else s).
  assert (Hc0 : connections_of s0 item = {[edge_id e := e]}).
  { unfold s0. destruct (isOutputConnection item); [|exact Hc].
    rewrite connections_of_new_line. exact Hc. }
  exists s0. split.
  { unfold s0. destruct (isOutputConnection item); reflexivity. }
  rewrite (connection_edges_singleton s0 item e Hc0).
  unfold disconnect_terminal. rewrite Hc0, lookup_singleton_eq. simpl.
  destruct (removeEdge _ _) as [ok s3]. reflexivity.
Qed.

Lemma disconnect_terminal_graph s e c :
  graph (snd (disconnect_terminal s e c)) = graph s.
Proof.
  unfold disconnect_terminal.
  destruct (connections_of s c !! edge_id e); reflexivity.
Qed.

Lemma removeEdge_graph s id :
  has_edge (graph s) id = true →
  graph (snd (removeEdge s id)) = mkGraph (delete id (dagnodes (graph s))).
Proof. intros H. unfold removeEdge. rewrite H. reflexivity. Qed.

Lemma mouseMoveEvent_keeps s event :
  graph (mouseMoveEvent s event) = graph s ∧
  connections (mouseMoveEvent s event) = connections s ∧
  line (mouseMoveEvent s event) = line s ∧
  items (mouseMoveEvent s event) = items s.
Proof.
  unfold mouseMoveEvent.
  destruct (line s) as [r|] eqn:E; simpl; repeat split; exact E.
Qed.

Lemma mouseMoveEvents_keep events s :
  graph (mouseMoveEvents s events) = graph s ∧
  connections (mouseMoveEvents s events) = connections s ∧
  line (mouseMoveEvents s events) = line s ∧
  items (mouseMoveEvents s events) = items s.
Proof.
  unfold mouseMoveEvents. revert s.
  induction events as [|ev events IH]; intros s; simpl; [repeat split|].
  destruct (IH (mouseMoveEvent s ev)) as (G & C & L & I).
  destruct (mouseMoveEvent_keeps s ev) as (G' & C' & L' & I').
  repeat split; congruence.
Qed.

Lemma drop_line_head r xs i rest :
  drop_line r xs = i :: rest → In i xs.
Proof.
  destruct xs as [|x xs]; simpl; [discriminate|].
  destruct (is_line r x); intros H.
  - right. rewrite H. left. reflexivity.
  - left. congruence.
Qed.

Lemma drop_line_connection r xs c rest :
  drop_line r xs = IConnection c :: rest → existsb is_connection xs = true.
Proof.
  intros H. apply existsb_exists. exists (IConnection c).
  split; [eapply drop_line_head; exact H | reflexivity].
Qed.

(** A release that does not find a connection widget under both ends of the
    line touches neither the graph nor any [connections] dict. *)
Lemma mouseReleaseEvent_no_mutation s event :
  connection_under_both_ends items_at s = false →
  graph (mouseReleaseEvent items_at addEdge s event) = graph s ∧
  connections (mouseReleaseEvent items_at addEdge s event) = connections s.
Proof.
  unfold connection_under_both_ends, connection_under, mouseReleaseEvent.
  destruct (line s) as [r|]; [|repeat split].
  intros H.
  destruct (drop_line r (items_at (items s) (lines s) (p1 (line_segment s r))))
    as [|i1 r1] eqn:E1; [repeat split|].
  destruct (drop_line r (items_at (items s) (lines s) (p2 (line_segment s r))))
    as [|i2 r2] eqn:E2; [repeat split|].
  destruct i1 as [| c1 | | |]; try (repeat split; fail).
  destruct i2 as [| c2 | | |]; try (repeat split; fail).
  apply drop_line_connection in E1. apply drop_line_connection in E2.
  rewrite E1, E2 in H. discriminate.
Qed.

(** The line item is off the scene after every release that found a line. *)
Lemma removeItem_line_gone r s :
  existsb (is_line r) (items (removeItem_line r s)) = false.
Proof.
  unfold removeItem_line. simpl. induction (items s) as [|i its IH]; [reflexivity|].
  rewrite filter_cons. destruct (decide (is_line r i = false)) as [E|E]; simpl.
  - rewrite E. exact IH.
  - exact IH.
Qed.

End HandlerFacts.

Section HandlerClaims.
Import Graphics.

Variable items_at : list Item → gmap ref QLineF → QPointF → list Item.
Variable addEdge : Graph → string → string → string → string → Graph.
Variable Node_init : string → string → Node.

Lemma validateConnection_line s src dest force :
  line (snd (validateConnection s src dest force)) = line s.
Proof.
  unfold validateConnection. destruct (line s) as [r|] eqn:E; [|exact E].
  destruct src as [| src | | |], dest as [| dest | | |]; try exact E.
  destruct (isInputConnection src || isOutputConnection dest); [exact E|].
  destruct (String.eqb _ _); [exact E|].
  destruct (is_connectable dest) as [[|]|]; try exact E.
  destruct force; simpl; [|exact E].
  rewrite fold_force_remove_line. exact E.
Qed.

(** Where a release leaves [self.line]: it is cleared on every path but the
    one that returns early, taken when there is an item under each end of
    the line and the two top items are not both connection widgets. *)
Lemma mouseReleaseEvent_line_after s event r :
  line s = Some r →
  line (mouseReleaseEvent items_at addEdge s event) =
    match drop_line r (items_at (items s) (lines s) (p1 (line_segment s r))),
          drop_line r (items_at (items s) (lines s) (p2 (line_segment s r))) with
    | i1 :: _, i2 :: _ =>
        if is_connection i1 && is_connection i2 then None else Some r
    | _, _ => None
    end.
Proof.
  intros H. unfold mouseReleaseEvent. rewrite H.
  destruct (drop_line r _) as [|i1 r1]; [reflexivity|].
  destruct (drop_line r _) as [|i2 r2]; [reflexivity|].
  destruct i1 as [| c1 | | |], i2 as [| c2 | | |]; simpl; try exact H.
  destruct (validateConnection _ _ _ _) as [[|] s2]; reflexivity.
Qed.

(** C5, as amended. A left-button press on an input connection widget that
    carries exactly one edge, registered under its id and present in the
    graph, detaches that edge during the press: the edge is out of the
    graph, it is registered on neither of its two endpoints, and the scene
    has a new line whose first end is the centre of the edge's source
    terminal, the endpoint that survives when the pressed input is the
    edge's destination, and whose second end is the pointer position. *)
Theorem mousePressEvent_detaches_single_edge
    (s : Scene) (event : MouseEvent) (item : Connection) (e : Edge) :
  button event = LeftButton →
  itemAt items_at s (scenePos event) = Some (IConnection item) →
  isInputConnection item = true →
  connections_of s item = {[edge_id e := e]} →
  dest_item e = item →
  has_edge (graph s) (edge_id e) = true →
  has_edge (graph (mousePressEvent items_at s event)) (edge_id e) = false ∧
  dagnodes (graph (mousePressEvent items_at s event))
    = delete (edge_id e) (dagnodes (graph s)) ∧
  connections_of (mousePressEvent items_at s event) (source_item e) !! edge_id e = None ∧
  connections_of (mousePressEvent items_at s event) (dest_item e) !! edge_id e = None ∧
  ∃ r, line (mousePressEvent items_at s event) = Some r ∧
       lines (mousePressEvent items_at s event) !! r
         = Some (conn_center (source_item e), scenePos event) ∧
       In (ILine r) (items (mousePressEvent items_at s event)).
Proof.
  intros Hb Hitem Hin Hc Hdest Hedge.
  destruct (mousePressEvent_detach items_at s event item e Hb Hitem Hin Hc)
    as (s0 & Hg0 & ->).
  set (s2 := snd (disconnect_terminal s0 e item)).
  assert (Hedge2 : has_edge (graph s2) (edge_id e) = true).
  { unfold s2. rewrite disconnect_terminal_graph, Hg0. exact Hedge. }
  assert (Hg : graph (snd (removeEdge s2 (edge_id e)))
               = mkGraph (delete (edge_id e) (dagnodes (graph s)))).
  { rewrite (removeEdge_graph s2 _ Hedge2). unfold s2.
    rewrite disconnect_terminal_graph, Hg0. reflexivity. }
  split; [|split; [|split; [|split]]].
  - change (graph (new_line ?seg ?x)) with (graph x). rewrite Hg.
    rewrite has_edge_delete. rewrite decide_True by reflexivity. reflexivity.
  - change (graph (new_line ?seg ?x)) with (graph x). rewrite Hg. reflexivity.
  - rewrite connections_of_new_line. apply removeEdge_unregisters, Hedge2.
  - rewrite connections_of_new_line. apply removeEdge_unregisters, Hedge2.
  - eexists. split; [reflexivity|]. split.
    + simpl. apply lookup_insert_eq.
    + simpl. left. reflexivity.
Qed.

(** C6. A drawing session started by a left press that detaches the single
    edge of an input terminal, followed by any moves and by a release that
    does not find a connection widget under both ends of the line (so in
    particular a release over empty space), ends with a graph that differs
    from the graph before the press by the detached edge only: that edge is
    gone, nothing was added, and the release itself changed nothing. *)
Theorem detached_edge_not_restored
    (s : Scene) (press : MouseEvent) (item : Connection) (e : Edge)
    (moves : list MouseEvent) (release : MouseEvent) :
  button press = LeftButton →
  itemAt items_at s (scenePos press) = Some (IConnection item) →
  isInputConnection item = true →
  connections_of s item = {[edge_id e := e]} →
  has_edge (graph s) (edge_id e) = true →
  connection_under_both_ends items_at
    (mouseMoveEvents (mousePressEvent items_at s press) moves) = false →
  has_edge
    (graph (mouseReleaseEvent items_at addEdge
              (mouseMoveEvents (mousePressEvent items_at s press) moves) release))
    (edge_id e) = false ∧
  dagnodes
    (graph (mouseReleaseEvent items_at addEdge
              (mouseMoveEvents (mousePressEvent items_at s press) moves) release))
    = delete (edge_id e) (dagnodes (graph s)) ∧
  graph (mouseReleaseEvent items_at addEdge
           (mouseMoveEvents (mousePressEvent items_at s press) moves) release)
    = graph (mousePressEvent items_at s press).
Proof.
  intros Hb Hitem Hin Hc Hedge Hfree.
  destruct (mouseReleaseEvent_no_mutation items_at addEdge _ release Hfree) as [Hg _].
  destruct (mouseMoveEvents_keep moves (mousePressEvent items_at s press)) as [Hm _].
  rewrite Hg, Hm.
  destruct (mousePressEvent_detach items_at s press item e Hb Hitem Hin Hc)
    as (s0 & Hg0 & ->).
  change (graph (new_line ?seg ?x)) with (graph x).
  rewrite removeEdge_graph
    by (rewrite disconnect_terminal_graph, Hg0; exact Hedge).
  rewrite disconnect_terminal_graph, Hg0.
  split; [|split; reflexivity].
  rewrite has_edge_delete. rewrite decide_True by reflexivity. reflexivity.
Qed.

(** What [addNodes] does with the id of a graph edge that has no widget yet
    and whose source or destination node has no widget: [getNode] returns
    [None] for the missing node, the next line calls a method on it, and the
    [AttributeError] leaves [addNodes]; no widget is made or registered. *)
Lemma addNodes_missing_endpoint s dag_id id src_id dest_id src_attr dest_attr :
  dagnodes (graph s) !! dag_id = Some (DagEdge id src_id dest_id src_attr dest_attr) →
  scenenodes s !! dag_id = None →
  getNode s src_id = None ∨ getNode s dest_id = None →
  ∃ obj attr,
    addNodes Node_init s [dag_id]
      = Raise (AttributeError obj attr) (say (DebugAdding 1) s).
Proof.
  intros Hdag Hw Hmiss. unfold addNodes. simpl. rewrite Hdag, Hw.
  unfold addEdgeWidget.
  change (getNode (say ?m s) ?n) with (getNode s n).
  destruct Hmiss as [Hs|Hd].
  - rewrite Hs. simpl. eauto.
  - rewrite Hd. destruct (getNode s src_id) as [[n|e']|]; simpl; eauto.
Qed.

End HandlerClaims.

Section HandlerWitnesses.
Import Graphics GraphicsExamples.

Lemma mousePressEvent_detaches_single_edge_witness :
  has_edge
    (graph (mousePressEvent items_at1 idle1 (mkMouseEvent (10, 0)%Z LeftButton)))
    (edge_id edge1) = false ∧
  dagnodes (graph (mousePressEvent items_at1 idle1 (mkMouseEvent (10, 0)%Z LeftButton)))
    = delete (edge_id edge1) (dagnodes (graph idle1)) ∧
  connections_of (mousePressEvent items_at1 idle1 (mkMouseEvent (10, 0)%Z LeftButton))
    (source_item edge1) !! edge_id edge1 = None ∧
  connections_of (mousePressEvent items_at1 idle1 (mkMouseEvent (10, 0)%Z LeftButton))
    (dest_item edge1) !! edge_id edge1 = None ∧
  ∃ r, line (mousePressEvent items_at1 idle1 (mkMouseEvent (10, 0)%Z LeftButton)) = Some r ∧
       lines (mousePressEvent items_at1 idle1 (mkMouseEvent (10, 0)%Z LeftButton)) !! r
         = Some (conn_center (source_item edge1), (10, 0)%Z) ∧
       In (ILine r)
         (items (mousePressEvent items_at1 idle1 (mkMouseEvent (10, 0)%Z LeftButton))).
Proof.
  apply (mousePressEvent_detaches_single_edge items_at1 idle1
           (mkMouseEvent (10, 0)%Z LeftButton) B_in edge1).
  - reflexivity.
  - vm_compute. reflexivity.
  - reflexivity.
  - vm_compute. reflexivity.
  - reflexivity.
  - vm_compute. reflexivity.
Defined.

(** C5 as stated fails on a press with another button: a right-button press
    on [B.in], an input that carries exactly the edge [e1], changes nothing;
    the edge stays in the graph and no line is started. *)
Lemma mousePressEvent_right_button_detaches_nothing :
  itemAt items_at1 idle1 (10, 0)%Z = Some (IConnection B_in) ∧
  isInputConnection B_in = true ∧
  connection_edges idle1 B_in = [edge1] ∧
  mousePressEvent items_at1 idle1 (mkMouseEvent (10, 0)%Z RightButton) = idle1 ∧
  has_edge
    (graph (mousePressEvent items_at1 idle1 (mkMouseEvent (10, 0)%Z RightButton)))
    (edge_id edge1) = true ∧
  line (mousePressEvent items_at1 idle1 (mkMouseEvent (10, 0)%Z RightButton)) = None.
Proof. repeat split; vm_compute; reflexivity. Qed.

Lemma detached_edge_not_restored_witness :
  has_edge
    (graph (mouseReleaseEvent items_at1 addEdge1
              (mouseMoveEvents
                 (mousePressEvent items_at1 idle1 (mkMouseEvent (10, 0)%Z LeftButton))
                 [mkMouseEvent (30, 30)%Z NoButton; mkMouseEvent (70, 70)%Z NoButton])
              (mkMouseEvent (70, 70)%Z LeftButton)))
    (edge_id edge1) = false ∧
  dagnodes
    (graph (mouseReleaseEvent items_at1 addEdge1
              (mouseMoveEvents
                 (mousePressEvent items_at1 idle1 (mkMouseEvent (10, 0)%Z LeftButton))
                 [mkMouseEvent (30, 30)%Z NoButton; mkMouseEvent (70, 70)%Z NoButton])
              (mkMouseEvent (70, 70)%Z LeftButton)))
    = delete (edge_id edge1) (dagnodes (graph idle1)) ∧
  graph (mouseReleaseEvent items_at1 addEdge1
           (mouseMoveEvents
              (mousePressEvent items_at1 idle1 (mkMouseEvent (10, 0)%Z LeftButton))
              [mkMouseEvent (30, 30)%Z NoButton; mkMouseEvent (70, 70)%Z NoButton])
           (mkMouseEvent (70, 70)%Z LeftButton))
    = graph (mousePressEvent items_at1 idle1 (mkMouseEvent (10, 0)%Z LeftButton)).
Proof.
  apply (detached_edge_not_restored items_at1 addEdge1 idle1
           (mkMouseEvent (10, 0)%Z LeftButton) B_in edge1
           [mkMouseEvent (30, 30)%Z NoButton; mkMouseEvent (70, 70)%Z NoButton]
           (mkMouseEvent (70, 70)%Z LeftButton)).
  - reflexivity.
  - vm_compute. reflexivity.
  - reflexivity.
  - vm_compute. reflexivity.
  - vm_compute. reflexivity.
  - vm_compute. reflexivity.
Defined.

(** C1, the failing release. A line, item 100, is being drawn from [A.out];
    its free end is over the body of a node. The release finds [A.out] under
    the first end and a node widget under the second, takes the line item
    off the scene and returns: [self.line] still refers to the line, the
    graph is untouched, and the next validation call and the next move still
    see a line being drawn. *)
Theorem mouseReleaseEvent_return_keeps_line :
  line drawing1 = Some 100%positive ∧
  drop_line 100%positive (items_at1 (items drawing1) (lines drawing1) (0, 0)%Z)
    = [IConnection A_out] ∧
  head (drop_line 100%positive (items_at1 (items drawing1) (lines drawing1) (50, 50)%Z))
    = Some (INode node_A) ∧
  mouseReleaseEvent items_at1 addEdge1 drawing1 (mkMouseEvent (50, 50)%Z LeftButton)
    = removeItem_line 100%positive drawing1 ∧
  line (mouseReleaseEvent items_at1 addEdge1 drawing1
          (mkMouseEvent (50, 50)%Z LeftButton)) = Some 100%positive ∧
  existsb (is_line 100%positive)
    (items (mouseReleaseEvent items_at1 addEdge1 drawing1
              (mkMouseEvent (50, 50)%Z LeftButton))) = false ∧
  lines (mouseMoveEvent
           (mouseReleaseEvent items_at1 addEdge1 drawing1
              (mkMouseEvent (50, 50)%Z LeftButton))
           (mkMouseEvent (7, 7)%Z NoButton)) !! 100%positive
    = Some ((0, 0), (7, 7))%Z.
Proof. repeat split; vm_compute; reflexivity. Qed.

(** C8, the failing request. The graph knows the edge [e9] from node [X] to
    node [Y]; no widget is registered. [addNodes] on [e9] ends with the
    [AttributeError] raised by calling [getOutputConnection] on the [None]
    that [getNode] returned: not a [GraphException], the only error this
    module defines. Nothing was registered. *)
Theorem addNodes_dangling_edge_raises_AttributeError :
  getNode dangling1 "X" = None ∧
  getNode dangling1 "Y" = None ∧
  addNodes Node_init1 dangling1 ["e9"]
    = Raise (AttributeError "NoneType" "getOutputConnection")
        (say (DebugAdding 1) dangling1).
Proof. repeat split. Qed.

End HandlerWitnesses.

(* ------------------------------------------------------------------ *)
(** ** Further properties of src/core/nodes.py *)
(* ------------------------------------------------------------------ *)

Lemma list_remove_first_absent x xs :
  occurrences x xs = 0 → list_remove_first x xs = None.
Proof.
  induction xs as [|y xs IH]; simpl; [reflexivity|].
  destruct (Pos.eqb y x); [discriminate|]. intros H. rewrite IH by exact H.
  reflexivity.
Qed.

Lemma list_remove_first_app x xs ys :
  occurrences x xs = 0 →
  list_remove_first x (xs ++ x :: ys) = Some (xs ++ ys).
Proof.
  induction xs as [|y xs IH]; simpl.
  - rewrite Pos.eqb_refl. reflexivity.
  - destruct (Pos.eqb y x); [discriminate|]. intros H. rewrite IH by exact H.
    reflexivity.
Qed.

Lemma not_in_filter_ne (x : ref) (xs : list ref) :
  x ∉ filter (λ i, i ≠ x) xs.
Proof. intros H. apply list_elem_of_filter in H as [H _]. contradiction. Qed.

Section NodesExtras.
Import Nodes NodesExamples MoreExamples.

(** X1. [LineClass.__init__] takes the name and the two points from its
    arguments in the order given and swaps only the two items: whatever the
    start item is, the name is the [repr] of the first argument, a dot, and
    the [repr] of the second, [sourcePoint] is the centre of the first
    argument and [destPoint] the centre of the second. So for a line whose
    first argument is an input, [getLine] runs from [destPoint] to
    [sourcePoint]; otherwise it runs from [sourcePoint] to [destPoint]. *)
Theorem LineClass_init_points_keep_argument_order
    (h : Heap) (self startItem endItem : ref) (l : LineClass) :
  LineClass_init h self startItem endItem = Some l →
  (∀ cs ce, terminals h !! startItem = Some cs →
            terminals h !! endItem = Some ce →
            line_name l = (repr cs ++ "." ++ repr ce)%string) ∧
  sourcePoint l = center_of h startItem ∧
  destPoint l = center_of h endItem ∧
  ((isInputConnection <$> terminals h !! startItem) = Some true →
   myEndItem l = startItem ∧ getLine h l = (destPoint l, sourcePoint l)) ∧
  ((isInputConnection <$> terminals h !! startItem) = Some false →
   myStartItem l = startItem ∧ getLine h l = (sourcePoint l, destPoint l)).
Proof.
  unfold LineClass_init, getLine, center_of.
  destruct (terminals h !! startItem) as [s|] eqn:Es; [|discriminate].
  destruct (terminals h !! endItem) as [e|] eqn:Ee; [|discriminate].
  destruct (isInputConnection s) eqn:Ei; intros [= <-]; simpl;
    rewrite ?Es, ?Ee; simpl; rewrite Ei;
    (split; [intros cs ce [= <-] [= <-]; reflexivity|]);
    (split; [reflexivity|]); (split; [reflexivity|]);
    split; intros H; try discriminate H; split; reflexivity.
Qed.

Lemma LineClass_init_points_keep_argument_order_witness :
  (∀ cs ce, terminals heap0 !! 2%positive = Some cs →
            terminals heap0 !! 1%positive = Some ce →
            line_name line_rev0 = (repr cs ++ "." ++ repr ce)%string) ∧
  sourcePoint line_rev0 = center_of heap0 2%positive ∧
  destPoint line_rev0 = center_of heap0 1%positive ∧
  ((isInputConnection <$> terminals heap0 !! 2%positive) = Some true →
   myEndItem line_rev0 = 2%positive ∧
   getLine heap0 line_rev0 = (destPoint line_rev0, sourcePoint line_rev0)) ∧
  ((isInputConnection <$> terminals heap0 !! 2%positive) = Some false →
   myStartItem line_rev0 = 2%positive ∧
   getLine heap0 line_rev0 = (sourcePoint line_rev0, destPoint line_rev0)).
Proof.
  apply (LineClass_init_points_keep_argument_order heap0 3%positive 2%positive 1%positive).
  vm_compute. reflexivity.
Defined.

(** X2. [deleteNode] on a line that is in the scene but not registered on
    its start item, as every line is between [__init__] and the first
    [updatePosition], raises [ValueError] from [list.remove], and by then
    the line item has already been taken off the scene. *)
Theorem deleteNode_unregistered_raises_ValueError (h : Heap) (l : LineClass) :
  line_id l ∈ scene_items h →
  registered h l (myStartItem l) = 0 →
  deleteNode h l
    = Raised ValueError
        (mkHeap (terminals h) (filter (λ i, i ≠ line_id l) (scene_items h))
           (geometry h)) ∧
  line_id l ∉ filter (λ i, i ≠ line_id l) (scene_items h).
Proof.
  intros Hin Hreg. split; [|apply not_in_filter_ne].
  unfold deleteNode. rewrite bool_decide_eq_true_2 by exact Hin.
  change (lines_of (mkHeap (terminals h) ?si (geometry h)) ?r) with (lines_of h r).
  rewrite list_remove_first_absent by exact Hreg. reflexivity.
Qed.

Lemma deleteNode_unregistered_raises_ValueError_witness :
  deleteNode heap0 line0
    = Raised ValueError
        (mkHeap (terminals heap0)
           (filter (λ i, i ≠ line_id line0) (scene_items heap0)) (geometry heap0)) ∧
  line_id line0 ∉ filter (λ i, i ≠ line_id line0) (scene_items heap0).
Proof.
  apply (deleteNode_unregistered_raises_ValueError heap0 line0).
  - vm_compute. constructor.
  - reflexivity.
Defined.

(** X3. [deleteNode] cannot be repeated: after a [deleteNode] that
    succeeded the line is in no scene, so a second [deleteNode] on it raises
    the [AttributeError] of [self.scene().removeItem] and changes nothing. *)
Theorem deleteNode_twice_raises_AttributeError (h h' : Heap) (l : LineClass) :
  deleteNode h l = Done h' →
  deleteNode h' l = Raised NoneTypeAttributeError h'.
Proof.
  unfold deleteNode at 1.
  destruct (bool_decide (line_id l ∈ scene_items h)); [|discriminate].
  destruct (list_remove_first _ _) as [xs|]; [|discriminate].
  destruct (list_remove_first _ _) as [ys|]; [|discriminate].
  intros [= <-]. unfold deleteNode. simpl.
  rewrite bool_decide_eq_false_2 by apply not_in_filter_ne. reflexivity.
Qed.

Lemma deleteNode_twice_raises_AttributeError_witness :
  deleteNode heap2 line0 = Raised NoneTypeAttributeError heap2.
Proof.
  apply (deleteNode_twice_raises_AttributeError heap1 heap2 line0).
  vm_compute. reflexivity.
Defined.

Lemma lines_of_mk t si g r :
  lines_of (mkHeap t si g) r = match t !! r with Some c => connectedLine c | None => [] end.
Proof. reflexivity. Qed.

(** X4. [updatePosition] followed by [deleteNode] is a round trip on the
    terminals: for a line that is in the scene and was registered on neither
    of its endpoints (which may be one and the same terminal), the
    [deleteNode] succeeds and every terminal, with its [connectedLine] list,
    is as before the [updatePosition]; the line item is off the scene and
    its segment stays set. *)
Theorem updatePosition_deleteNode_round_trip (h : Heap) (l : LineClass) :
  is_Some (terminals h !! myStartItem l) →
  is_Some (terminals h !! myEndItem l) →
  line_id l ∈ scene_items h →
  registered h l (myStartItem l) = 0 →
  registered h l (myEndItem l) = 0 →
  ∃ h', deleteNode (updatePosition h l) l = Done h' ∧
        terminals h' = terminals h ∧
        scene_items h' = filter (λ i, i ≠ line_id l) (scene_items h) ∧
        geometry h' = <[line_id l := getLine h l]> (geometry h).
Proof.
  intros [ca Ha] [cb Hb] Hin Ra Rb.
  unfold registered, lines_of in Ra, Rb. rewrite Ha in Ra. rewrite Hb in Rb.
  unfold deleteNode, updatePosition. cbn [scene_items terminals geometry].
  rewrite bool_decide_eq_true_2 by exact Hin.
  rewrite !lines_of_mk.
  destruct (decide (myStartItem l = myEndItem l)) as [E|N].
  - rewrite <- E in *. assert (cb = ca) by congruence. subst cb.
    rewrite !lookup_alter_eq, Ha. cbn [fmap option_fmap option_map append_line connectedLine].
    rewrite <- app_assoc. cbn [app].
    rewrite (list_remove_first_app _ _ _ Ra).
    cbv beta iota. rewrite lines_of_mk.
    rewrite !lookup_alter_eq, Ha. cbn [fmap option_fmap option_map append_line set_connectedLine connectedLine].
    rewrite (list_remove_first_app _ _ [] Ra), app_nil_r.
    eexists. split; [reflexivity|]. cbn [scene_items terminals geometry].
    split; [|split; reflexivity].
    apply map_eq. intros k.
    destruct (decide (myStartItem l = k)) as [<-|Hk].
    + rewrite !lookup_alter_eq, Ha. simpl. f_equal. destruct ca; reflexivity.
    + rewrite !lookup_alter_ne by done. reflexivity.
  - rewrite lookup_alter_ne by done. rewrite lookup_alter_eq, Ha.
    cbn [fmap option_fmap option_map append_line connectedLine].
    rewrite (list_remove_first_app _ _ [] Ra), app_nil_r.
    cbv beta iota. rewrite lines_of_mk.
    rewrite lookup_alter_ne by done. rewrite lookup_alter_eq, lookup_alter_ne by done.
    rewrite Hb. cbn [fmap option_fmap option_map append_line connectedLine].
    rewrite (list_remove_first_app _ _ [] Rb), app_nil_r.
    eexists. split; [reflexivity|]. cbn [scene_items terminals geometry].
    split; [|split; reflexivity].
    apply map_eq. intros k.
    destruct (decide (myEndItem l = k)) as [<-|Hk].
    + rewrite lookup_alter_eq, lookup_alter_ne by done.
      rewrite lookup_alter_eq, lookup_alter_ne by done.
      rewrite Hb. simpl. f_equal. destruct cb; reflexivity.
    + rewrite lookup_alter_ne by done.
      destruct (decide (myStartItem l = k)) as [<-|Hk'].
      * rewrite lookup_alter_eq, lookup_alter_ne by done.
        rewrite lookup_alter_eq, Ha. simpl. f_equal. destruct ca; reflexivity.
      * rewrite !lookup_alter_ne by done. reflexivity.
Qed.

Lemma updatePosition_deleteNode_round_trip_witness :
  ∃ h', deleteNode (updatePosition heap0 loop0) loop0 = Done h' ∧
        terminals h' = terminals heap0 ∧
        scene_items h' = filter (λ i, i ≠ line_id loop0) (scene_items heap0) ∧
        geometry h' = <[line_id loop0 := getLine heap0 loop0]> (geometry heap0).
Proof.
  apply (updatePosition_deleteNode_round_trip heap0 loop0).
  - vm_compute. eexists. reflexivity.
  - vm_compute. eexists. reflexivity.
  - vm_compute. constructor.
  - reflexivity.
  - reflexivity.
Defined.

Lemma updatePosition_lines_of (h : Heap) (l : LineClass) (r : ref) :
  is_Some (terminals h !! r) →
  lines_of (updatePosition h l) r =
    lines_of h r
    ++ (if decide (myStartItem l = r) then [line_id l] else [])
    ++ (if decide (myEndItem l = r) then [line_id l] else []).
Proof.
  intros [c Hc]. unfold updatePosition, lines_of. cbn [terminals].
  destruct (decide (myStartItem l = r)) as [Es|Ns];
    destruct (decide (myEndItem l = r)) as [Ee|Ne].
  - rewrite Es, Ee, !lookup_alter_eq, Hc. simpl.
    rewrite <- app_assoc. reflexivity.
  - rewrite lookup_alter_ne by done. rewrite Es, lookup_alter_eq, Hc. simpl.
    reflexivity.
  - rewrite Ee, lookup_alter_eq, lookup_alter_ne by done. rewrite Hc.
    reflexivity.
  - rewrite !lookup_alter_ne by done. rewrite Hc, !app_nil_r. reflexivity.
Qed.

(** X5. What one [updatePosition] adds, for any line and any allocated
    terminal: the terminal's [connectedLine] list gains one occurrence of
    this line for each endpoint of the line that is this terminal (none,
    one, or two when both endpoints are this terminal), and the number of
    occurrences of every other line in it does not change. *)
Theorem updatePosition_registrations (h : Heap) (l : LineClass) (r id : ref) :
  is_Some (terminals h !! r) →
  occurrences id (lines_of (updatePosition h l) r)
    = occurrences id (lines_of h r)
      + (if Pos.eqb (line_id l) id then endpoints_at l r else 0).
Proof.
  intros Hr. rewrite (updatePosition_lines_of h l r Hr), !occurrences_app.
  unfold endpoints_at.
  destruct (decide (myStartItem l = r)), (decide (myEndItem l = r));
    simpl; destruct (Pos.eqb (line_id l) id); lia.
Qed.

Lemma updatePosition_registrations_witness :
  occurrences 3%positive (lines_of (updatePosition heap0 loop0) 2%positive)
    = occurrences 3%positive (lines_of heap0 2%positive)
      + (if Pos.eqb (line_id loop0) 3%positive
         then endpoints_at loop0 2%positive else 0).
Proof.
  apply (updatePosition_registrations heap0 loop0 2%positive 3%positive).
  vm_compute. eexists. reflexivity.
Defined.

Local Open Scope Z_scope.

(** X6. The hit box of a node made with integer sizes [w] and [h]: its left
    and right edges add up to [-(w mod 2)] and its top and bottom edges to
    [-(h mod 2)], so it is centred on the item's origin exactly for an even
    size and reaches one unit further to the left (or top) for an odd one,
    the division by two rounding down; for sizes that are not negative the
    origin is strictly inside it. *)
Theorem boundingRect_off_centre (nm : string) (w h : Z) :
  rect_x (boundingRect (NodeBase_init nm w h))
    + (rect_x (boundingRect (NodeBase_init nm w h))
       + rect_w (boundingRect (NodeBase_init nm w h))) = - (w mod 2) ∧
  rect_y (boundingRect (NodeBase_init nm w h))
    + (rect_y (boundingRect (NodeBase_init nm w h))
       + rect_h (boundingRect (NodeBase_init nm w h))) = - (h mod 2) ∧
  (0 ≤ w →
   rect_x (boundingRect (NodeBase_init nm w h)) < 0
   ∧ 0 < rect_x (boundingRect (NodeBase_init nm w h))
         + rect_w (boundingRect (NodeBase_init nm w h))) ∧
  (0 ≤ h →
   rect_y (boundingRect (NodeBase_init nm w h)) < 0
   ∧ 0 < rect_y (boundingRect (NodeBase_init nm w h))
         + rect_h (boundingRect (NodeBase_init nm w h))).
Proof.
  unfold boundingRect, NodeBase_init. simpl.
  repeat split; intros; Z.div_mod_to_equations; lia.
Qed.

(** X7. The label line of a node made by [__init__] is horizontal, runs from
    the left edge of the hit box to its right edge, 24 units below the top
    edge, and lies within the hit box exactly when the height is at least
    18. *)
Theorem getLabelLine_position (nm : string) (w h : Z) :
  snd (p1 (getLabelLine (NodeBase_init nm w h)))
    = snd (p2 (getLabelLine (NodeBase_init nm w h))) ∧
  fst (p1 (getLabelLine (NodeBase_init nm w h)))
    = rect_x (boundingRect (NodeBase_init nm w h)) ∧
  fst (p2 (getLabelLine (NodeBase_init nm w h)))
    = rect_x (boundingRect (NodeBase_init nm w h))
      + rect_w (boundingRect (NodeBase_init nm w h)) ∧
  snd (p1 (getLabelLine (NodeBase_init nm w h)))
    = rect_y (boundingRect (NodeBase_init nm w h)) + 24 ∧
  (snd (p1 (getLabelLine (NodeBase_init nm w h)))
     ≤ rect_y (boundingRect (NodeBase_init nm w h))
       + rect_h (boundingRect (NodeBase_init nm w h))
   ↔ 18 ≤ h).
Proof.
  unfold getLabelLine, boundingRect, NodeBase_init, p1, p2. simpl.
  repeat split; intros; lia.
Qed.

Local Close Scope Z_scope.

End NodesExtras.

(* ------------------------------------------------------------------ *)
(** ** Further properties of the scene: validation, lookup, view *)
(* ------------------------------------------------------------------ *)

Section ValidationExtras.
Import Graphics GraphicsExamples GraphicsMore.

Lemma validateConnection_rejected_graph s src dest force :
  fst (validateConnection s src dest force) = false →
  graph (snd (validateConnection s src dest force)) = graph s.
Proof.
  unfold validateConnection. destruct (line s) as [r|]; [|reflexivity].
  destruct src as [| src | | |], dest as [| dest | | |]; try reflexivity.
  destruct (isInputConnection src || isOutputConnection dest); [reflexivity|].
  destruct (String.eqb _ _); [reflexivity|].
  destruct (is_connectable dest) as [[|]|]; try reflexivity.
  destruct force; simpl; [discriminate | reflexivity].
Qed.

(** X15. A validation call that rejects, and any validation call made
    with [force] false, never reaches the eviction loop, and leaves the
    whole scene as it was but for what it prints or logs, which is at most
    one message: [self.line], the segments of the line items, the items of
    the scene, [scenenodes], the graph and every [connections] dict are
    unchanged, for any two scene items as arguments. *)
Theorem validateConnection_frame (s : Scene) (src dest : Item) (force : bool) :
  fst (validateConnection s src dest force) = false ∨ force = false →
  snd (validateConnection s src dest force) = s
  ∨ ∃ m, snd (validateConnection s src dest force) = say m s.
Proof.
  unfold validateConnection. destruct (line s) as [r|]; [|left; reflexivity].
  destruct src as [| src | | |], dest as [| dest | | |];
    try (intros _; right; eexists; reflexivity).
  destruct (isInputConnection src || isOutputConnection dest);
    [intros _; right; eexists; reflexivity|].
  destruct (String.eqb _ _); [intros _; right; eexists; reflexivity|].
  destruct (is_connectable dest) as [[|]|]; try (intros _; left; reflexivity).
  destruct force; simpl.
  - intros [H|H]; discriminate.
  - intros _. right. eexists. reflexivity.
Qed.

Lemma validateConnection_frame_witness :
  snd (validateConnection drawing1 (IConnection B_out) (IConnection B_in) true)
    = drawing1
  ∨ ∃ m, snd (validateConnection drawing1 (IConnection B_out) (IConnection B_in) true)
         = say m drawing1.
Proof.
  apply (validateConnection_frame drawing1 (IConnection B_out) (IConnection B_in) true).
  left. reflexivity.
Defined.

(** X16. A validation call that rejects, and any validation call made with
    [force] false, changes neither the graph nor the [connections] dict of
    any terminal, for any two scene items as arguments: the model is only
    ever touched by a forced call that approves. *)
Theorem validateConnection_mutates_only_when_forced_and_approved
    (s : Scene) (src dest : Item) (force : bool) :
  fst (validateConnection s src dest force) = false ∨ force = false →
  graph (snd (validateConnection s src dest force)) = graph s ∧
  connections (snd (validateConnection s src dest force)) = connections s.
Proof.
  unfold validateConnection. destruct (line s) as [r|]; [|auto].
  destruct src as [| src | | |], dest as [| dest | | |]; auto.
  destruct (isInputConnection src || isOutputConnection dest); auto.
  destruct (String.eqb _ _); auto.
  destruct (is_connectable dest) as [[|]|]; auto.
  destruct force; simpl; auto.
  intros [H|H]; discriminate.
Qed.

Lemma validateConnection_mutates_only_when_forced_and_approved_witness :
  graph (snd (validateConnection drawing1 (IConnection B_out) (IConnection B_in) true))
    = graph drawing1 ∧
  connections (snd (validateConnection drawing1 (IConnection B_out) (IConnection B_in) true))
    = connections drawing1.
Proof.
  apply (validateConnection_mutates_only_when_forced_and_approved drawing1
           (IConnection B_out) (IConnection B_in) true).
  left. reflexivity.
Defined.

(** X17. The connectable test does not look at the edges of the
    destination. While a line is being drawn, on a pair that passes the
    direction and same-node tests, with a destination whose [is_connectable]
    is false and that carries no edge at all: the unforced call still
    rejects with the not-connectable warning, and the forced call approves
    and leaves the scene exactly as it was, logging nothing. *)
Theorem validateConnection_not_connectable_without_edges
    (s : Scene) (src dest : Connection) :
  line s ≠ None →
  isInputConnection src = false →
  isOutputConnection dest = false →
  conn_dagnode src ≠ conn_dagnode dest →
  is_connectable dest = Some false →
  connections_of s dest = ∅ →
  validateConnection s (IConnection src) (IConnection dest) false
    = (false, say (WarnNotConnectable (connection_name dest)) s) ∧
  validateConnection s (IConnection src) (IConnection dest) true = (true, s).
Proof.
  intros Hline Hi Ho Hne Hc He. unfold validateConnection.
  destruct (line s) as [r|]; [|contradiction].
  rewrite Hi, Ho, Hc. simpl.
  destruct (String.eqb_spec (conn_dagnode src) (conn_dagnode dest)); [contradiction|].
  simpl. unfold connection_edges. rewrite He, map_to_list_empty. auto.
Qed.

Lemma validateConnection_not_connectable_without_edges_witness :
  validateConnection drawing2 (IConnection A_out) (IConnection B_in) false
    = (false, say (WarnNotConnectable (connection_name B_in)) drawing2) ∧
  validateConnection drawing2 (IConnection A_out) (IConnection B_in) true
    = (true, drawing2).
Proof.
  apply (validateConnection_not_connectable_without_edges drawing2 A_out B_in).
  - simpl. discriminate.
  - reflexivity.
  - reflexivity.
  - simpl. discriminate.
  - reflexivity.
  - reflexivity.
Defined.

(** X8. [getNode] looks a widget up by id first and by name second: a
    widget registered under the given string is returned whatever the names
    of the others are; every widget it returns is registered, under that
    string or with that string as its name; and it returns [None] exactly
    when no widget is registered under the string and no registered widget
    has it as its name. *)
Theorem getNode_by_id_then_name (s : Scene) (nm : string) :
  (∀ w, scenenodes s !! nm = Some w → getNode s nm = Some w) ∧
  (∀ w, getNode s nm = Some w →
        ∃ k, scenenodes s !! k = Some w ∧ (k = nm ∨ widget_name w = nm)) ∧
  (getNode s nm = None ↔
   scenenodes s !! nm = None ∧
   ∀ k w, scenenodes s !! k = Some w → widget_name w ≠ nm).
Proof.
  unfold getNode. split; [|split].
  - intros w H. rewrite H. reflexivity.
  - intros w. destruct (scenenodes s !! nm) as [w'|] eqn:E.
    + intros [= <-]. eauto.
    + destruct (List.find _ _) as [[k w']|] eqn:F; [|discriminate].
      intros [= <-]. apply find_some in F as [Hin Hn]. simpl in *.
      apply list_elem_of_In, elem_of_map_to_list in Hin.
      apply String.eqb_eq in Hn. eauto.
  - destruct (scenenodes s !! nm) as [w'|] eqn:E.
    + split; [discriminate | intros [H _]; discriminate].
    + destruct (List.find _ _) as [[k w']|] eqn:F.
      * split; [discriminate|]. intros [_ H]. exfalso.
        apply find_some in F as [Hin Hn]. simpl in *.
        apply list_elem_of_In, elem_of_map_to_list in Hin.
        apply String.eqb_eq in Hn. exact (H k w' Hin Hn).
      * split; [|reflexivity]. intros _. split; [reflexivity|].
        intros k w Hk Hn.
        pose proof (find_none _ _ F (k, w)) as Hf. simpl in Hf.
        rewrite Hn, String.eqb_refl in Hf.
        discriminate Hf. apply list_elem_of_In, elem_of_map_to_list. exact Hk.
Qed.

(** X24. The setter and the getter of [viewport_mode] are inverse on the
    three mode names: setting a string succeeds with a mode exactly when the
    getter turns that mode back into that string. So any other string is
    handed to Qt unchanged and fails, and the two modes without a name read
    back as [None]. *)
Theorem viewport_mode_round_trip (nm : string) (m : ViewportUpdateMode) :
  set_viewport_mode (inl nm) = Some m ↔ viewport_mode m = Some nm.
Proof.
  unfold set_viewport_mode, viewport_mode. split.
  - destruct (String.eqb_spec nm "full") as [->|]; [intros [= <-]; reflexivity|].
    destruct (String.eqb_spec nm "smart") as [->|]; [intros [= <-]; reflexivity|].
    destruct (String.eqb_spec nm "minimal") as [->|]; [intros [= <-]; reflexivity|].
    discriminate.
  - destruct m; intros [= <-]; reflexivity.
Qed.

End ValidationExtras.

(* ------------------------------------------------------------------ *)
(** ** Further properties of the scene: widget registration *)
(* ------------------------------------------------------------------ *)

Section AddNodesFacts.
Import Graphics.
Variable Node_init : string → string → Node.

Lemma addEdgeWidget_graph s i a b c d ws :
  match addEdgeWidget s i a b c d ws with
  | Ok _ s' => graph s' = graph s
  | Raise _ s' => graph s' = graph s
  end.
Proof.
  unfold addEdgeWidget.
  destruct (getOutputConnection _ _) as [e|[sc|]]; try reflexivity;
    destruct (getInputConnection _ _) as [e|[dc|]]; reflexivity.
Qed.

Lemma addNodes_loop_graph ids : ∀ s ws,
  match addNodes_loop Node_init s ids ws with
  | Ok _ s' => graph s' = graph s
  | Raise _ s' => graph s' = graph s
  end.
Proof.
  induction ids as [|id ids IH]; intros s ws; [reflexivity|].
  cbn [addNodes_loop].
  destruct (dagnodes (graph s) !! id) as [[i nm | i a b c d | i]|]; try apply IH.
  - destruct (scenenodes s !! id); [apply IH|].
    match goal with |- context [addNodes_loop _ ?s1 _ ?w1] =>
      specialize (IH s1 w1); destruct (addNodes_loop Node_init s1 ids w1); exact IH end.
  - destruct (scenenodes s !! id); [apply IH|].
    pose proof (addEdgeWidget_graph s i a b c d ws) as H.
    destruct (addEdgeWidget s i a b c d ws) as [ws' s'|e s']; [|exact H].
    specialize (IH s' ws').
    destruct (addNodes_loop Node_init s' ids ws'); congruence.
  - reflexivity.
Qed.

Lemma addNodes_loop_skips ids : ∀ s ws,
  Forall (skipped s) ids → addNodes_loop Node_init s ids ws = Ok ws s.
Proof.
  induction ids as [|id ids IH]; intros s ws H; [reflexivity|].
  inversion H as [|? ? Hid Hids]; subst. cbn [addNodes_loop]. unfold skipped in Hid.
  destruct (dagnodes (graph s) !! id) as [[i nm | i a b c d | i]|].
  - destruct Hid as [w ->]. apply IH, Hids.
  - destruct Hid as [w ->]. apply IH, Hids.
  - contradiction.
  - apply IH, Hids.
Qed.

Lemma registered_shown_insert s k w :
  registered_shown s →
  registered_shown
    (set_items (widget_item w :: items s)
       (set_scenenodes (<[k := w]> (scenenodes s)) s)).
Proof.
  intros H k' w'. simpl. intros Hl.
  destruct (decide (k = k')) as [->|Hne].
  - rewrite lookup_insert_eq in Hl. injection Hl as <-. left. reflexivity.
  - rewrite lookup_insert_ne in Hl by done. right. exact (H k' w' Hl).
Qed.

Lemma addEdgeWidget_shown s i a b c d ws :
  registered_shown s →
  (∀ w, In w ws → In (widget_item w) (items s)) →
  match addEdgeWidget s i a b c d ws with
  | Ok ws' s' =>
      registered_shown s' ∧ ∀ w, In w ws' → In (widget_item w) (items s')
  | Raise _ s' => registered_shown s'
  end.
Proof.
  intros H Hws. unfold addEdgeWidget.
  destruct (getOutputConnection _ _) as [e|[sc|]]; try exact H;
    destruct (getInputConnection _ _) as [e|[dc|]]; try exact H;
    try (split; assumption).
  simpl. split.
  - intros k' w'. simpl. intros Hl.
    destruct (decide (i = k')) as [->|Hne].
    + rewrite lookup_insert_eq in Hl. injection Hl as <-. left. reflexivity.
    + rewrite lookup_insert_ne in Hl by done. right. exact (H k' w' Hl).
  - intros w Hin. apply in_app_or in Hin as [Hin|[<-|[]]].
    + right. apply Hws, Hin.
    + left. reflexivity.
Qed.

Lemma addNodes_loop_shown ids : ∀ s ws,
  registered_shown s →
  (∀ w, In w ws → In (widget_item w) (items s)) →
  match addNodes_loop Node_init s ids ws with
  | Ok ws' s' =>
      registered_shown s' ∧ ∀ w, In w ws' → In (widget_item w) (items s')
  | Raise _ s' => registered_shown s'
  end.
Proof.
  induction ids as [|id ids IH]; intros s ws H Hws; [split; assumption|].
  cbn [addNodes_loop].
  destruct (dagnodes (graph s) !! id) as [[i nm | i a b c d | i]|];
    try (apply IH; assumption).
  - destruct (scenenodes s !! id); [apply IH; assumption|].
    apply IH.
    + apply (registered_shown_insert s i (WNode (Node_init i nm))), H.
    + intros w Hin. apply in_app_or in Hin as [Hin|[<-|[]]].
      * right. apply Hws, Hin.
      * left. reflexivity.
  - destruct (scenenodes s !! id); [apply IH; assumption|].
    pose proof (addEdgeWidget_shown s i a b c d ws H Hws) as He.
    destruct (addEdgeWidget s i a b c d ws) as [ws' s'|e s']; [|exact He].
    destruct He as [He1 He2]. apply IH; assumption.
  - exact H.
Qed.

(** X9. The loop of [addNodes] over a batch of ids that is the
    concatenation of two batches is the loop over the first, followed, when
    that one ends without an exception, by the loop over the second from
    the scene and the widget list reached; an exception in the first batch
    ends the whole batch where it was raised. *)
Theorem addNodes_loop_app (s : Scene) (ids1 ids2 : list string) (widgets : list Widget) :
  addNodes_loop Node_init s (ids1 ++ ids2) widgets =
  match addNodes_loop Node_init s ids1 widgets with
  | Ok widgets' s' => addNodes_loop Node_init s' ids2 widgets'
  | Raise e s' => Raise e s'
  end.
Proof.
  revert s widgets. induction ids1 as [|id ids1 IH]; intros s widgets; [reflexivity|].
  cbn [app addNodes_loop].
  destruct (dagnodes (graph s) !! id) as [[i nm | i a b c d | i]|]; try apply IH.
  - destruct (scenenodes s !! id); apply IH.
  - destruct (scenenodes s !! id); [apply IH|].
    destruct (addEdgeWidget s i a b c d widgets) as [ws' s'|e s']; [apply IH | reflexivity].
  - reflexivity.
Qed.

(** The same fact, kept for the proofs below. *)
Lemma addNodes_loop_split s ids1 id2 ids2 ws ws' s' :
  addNodes_loop Node_init s ids1 ws = Ok ws' s' →
  addNodes_loop Node_init s (ids1 ++ id2 :: ids2) ws
    = addNodes_loop Node_init s' (id2 :: ids2) ws'.
Proof.
  revert s ws. induction ids1 as [|id ids1 IH]; intros s ws.
  - intros [= <- <-]. reflexivity.
  - cbn [app addNodes_loop].
    destruct (dagnodes (graph s) !! id) as [[i nm | i a b c d | i]|]; try apply IH.
    + destruct (scenenodes s !! id); apply IH.
    + destruct (scenenodes s !! id); [apply IH|].
      destruct (addEdgeWidget s i a b c d ws) as [ws1 s1|e s1];
        [apply IH | discriminate].
    + discriminate.
Qed.

(** X10. [addNodes] has no rollback. When the ids of a batch that come
    before an id of the graph that is neither a node nor an edge are handled
    without an exception, [addNodes] on the whole batch raises
    [GraphException] for that id in the scene those first ids produced:
    their widgets stay registered and shown, and the ids after the offending
    one are not looked at. *)
Theorem addNodes_stops_at_invalid_id
    (s s' : Scene) (ids rest : list string) (bad x : string) (widgets : list Widget) :
  addNodes_loop Node_init
    (say (DebugAdding (length (ids ++ bad :: rest))) s) ids [] = Ok widgets s' →
  dagnodes (graph s) !! bad = Some (DagOther x) →
  addNodes Node_init s (ids ++ bad :: rest) = Raise (GraphException bad) s'.
Proof.
  intros Hloop Hbad. unfold addNodes.
  rewrite (addNodes_loop_split _ _ bad rest _ _ _ Hloop).
  pose proof (addNodes_loop_graph ids
                (say (DebugAdding (length (ids ++ bad :: rest))) s) []) as Hg.
  rewrite Hloop in Hg. cbn [addNodes_loop]. rewrite Hg. simpl. rewrite Hbad.
  reflexivity.
Qed.

(** X11. [addNodes] passes over ids silently: on a batch in which every id
    is either unknown to the graph or names a node or an edge that already
    has a widget, it returns the empty list and changes nothing but the
    debug log, however long the batch is. *)
Theorem addNodes_skips_unknown_and_registered (s : Scene) (ids : list string) :
  Forall (skipped s) ids →
  addNodes Node_init s ids = Ok [] (say (DebugAdding (length ids)) s).
Proof.
  intros H. unfold addNodes. apply addNodes_loop_skips. exact H.
Qed.

(** X12. Presenting a node and looking it up is a round trip: for an id
    that the graph maps to a node carrying that id, with no widget yet,
    [addNodes] returns exactly the new node widget; afterwards [getNode]
    returns that widget for the id, [getNodes] lists it, and a second
    [addNodes] for the same id returns nothing and registers nothing. *)
Theorem addNodes_registers_node (s : Scene) (id nm : string) :
  dagnodes (graph s) !! id = Some (DagNode id nm) →
  scenenodes s !! id = None →
  ∃ s', addNodes Node_init s [id] = Ok [WNode (Node_init id nm)] s' ∧
        getNode s' id = Some (WNode (Node_init id nm)) ∧
        In (Node_init id nm) (getNodes s') ∧
        addNodes Node_init s' [id] = Ok [] (say (DebugAdding 1) s').
Proof.
  intros Hd Hw. unfold addNodes. cbn [addNodes_loop length].
  change (graph (say ?m s)) with (graph s).
  change (scenenodes (say ?m s)) with (scenenodes s).
  rewrite Hd, Hw. eexists. split; [reflexivity|]. split; [|split].
  - unfold getNode. simpl. rewrite lookup_insert_eq. reflexivity.
  - unfold getNodes. simpl. left. reflexivity.
  - simpl. rewrite Hd. rewrite lookup_insert_eq. reflexivity.
Qed.

(** X13. [addNodes] keeps the registry and the scene in step: if every
    widget in [scenenodes] is an item of the scene before the call, the same
    holds after it, whether it returns or raises; and every widget it
    returns is an item of the scene. *)
Theorem addNodes_keeps_registered_shown (s : Scene) (ids : list string) :
  registered_shown s →
  match addNodes Node_init s ids with
  | Ok widgets s' =>
      registered_shown s' ∧ ∀ w, In w widgets → In (widget_item w) (items s')
  | Raise _ s' => registered_shown s'
  end.
Proof.
  intros H. unfold addNodes. apply addNodes_loop_shown.
  - exact H.
  - intros w [].
Qed.

End AddNodesFacts.

Section AddNodesWitnesses.
Import Graphics GraphicsExamples GraphicsMore.

Lemma registered_shown_idle1 : registered_shown idle1.
Proof.
  intros k w H. unfold idle1, widgets1 in H. simpl in H.
  repeat (apply lookup_insert_Some in H as [[_ <-]|[_ H]]; [simpl; tauto|]).
  rewrite lookup_empty in H. discriminate.
Qed.

Lemma addNodes_stops_at_invalid_id_witness :
  addNodes Node_init1 mixed1 (["A"] ++ "x" :: ["A"])
    = Raise (GraphException "x") mixed1_after_A.
Proof.
  apply (addNodes_stops_at_invalid_id Node_init1 mixed1 mixed1_after_A
           ["A"] ["A"] "x" "x" [WNode (Node_init1 "A" "A")]).
  - vm_compute. reflexivity.
  - vm_compute. reflexivity.
Defined.

Lemma addNodes_skips_unknown_and_registered_witness :
  addNodes Node_init1 idle1 ["A"; "zzz"; "e1"]
    = Ok [] (say (DebugAdding (length ["A"; "zzz"; "e1"])) idle1).
Proof.
  apply (addNodes_skips_unknown_and_registered Node_init1 idle1 ["A"; "zzz"; "e1"]).
  repeat constructor; vm_compute; first [exact I | eexists; reflexivity].
Defined.

Lemma addNodes_registers_node_witness :
  ∃ s', addNodes Node_init1 fresh1 ["A"] = Ok [WNode (Node_init1 "A" "A")] s' ∧
        getNode s' "A" = Some (WNode (Node_init1 "A" "A")) ∧
        In (Node_init1 "A" "A") (getNodes s') ∧
        addNodes Node_init1 s' ["A"] = Ok [] (say (DebugAdding 1) s').
Proof.
  apply (addNodes_registers_node Node_init1 fresh1 "A" "A").
  - vm_compute. reflexivity.
  - vm_compute. reflexivity.
Defined.

Lemma addNodes_keeps_registered_shown_witness :
  match addNodes Node_init1 idle1 ["A"; "zzz"; "e1"] with
  | Ok widgets s' =>
      registered_shown s' ∧ ∀ w, In w widgets → In (widget_item w) (items s')
  | Raise _ s' => registered_shown s'
  end.
Proof.
  apply (addNodes_keeps_registered_shown Node_init1 idle1 ["A"; "zzz"; "e1"]).
  exact registered_shown_idle1.
Defined.

End AddNodesWitnesses.

(* ------------------------------------------------------------------ *)
(** ** Further properties of the scene: press, move, release *)
(* ------------------------------------------------------------------ *)

Ltac unchanged :=
  let H := fresh in
  intros [H|H]; exfalso; apply H; first [reflexivity | assumption].

Section HandlerExtras.
Import Graphics.
Variable items_at : list Item → gmap ref QLineF → QPointF → list Item.
Variable addEdge : Graph → string → string → string → string → Graph.

Lemma mouseMoveEvent_segment s event r seg :
  line s = Some r → lines s !! r = Some seg →
  line (mouseMoveEvent s event) = Some r ∧
  lines (mouseMoveEvent s event) !! r = Some (p1 seg, scenePos event).
Proof.
  intros Hl Hs. unfold mouseMoveEvent, line_segment. rewrite Hl.
  split; [exact Hl|]. cbn [lines set_lines]. rewrite lookup_insert_eq.
  unfold QLineF, QPointF in *. rewrite Hs. reflexivity.
Qed.

Lemma mouseMoveEvents_origin moves : ∀ s r seg,
  line s = Some r → lines s !! r = Some seg →
  line (mouseMoveEvents s moves) = Some r ∧
  ∃ q, lines (mouseMoveEvents s moves) !! r = Some (p1 seg, q).
Proof.
  unfold mouseMoveEvents.
  induction moves as [|ev moves IH]; intros s r seg Hl Hs; simpl.
  - split; [exact Hl|]. exists (p2 seg). destruct seg as [a b]. exact Hs.
  - destruct (mouseMoveEvent_segment s ev r seg Hl Hs) as [Hl' Hs'].
    exact (IH _ r _ Hl' Hs').
Qed.

(** X18. While a line is being drawn, any sequence of move events leaves
    the first end of the line where it was and puts the second end at the
    position of the last move; the line stays the one being drawn, and the
    graph and the items of the scene are not touched. *)
Theorem mouseMoveEvents_follow_pointer
    (s : Scene) (moves : list MouseEvent) (last : MouseEvent) (r : ref) (seg : QLineF) :
  line s = Some r →
  lines s !! r = Some seg →
  line (mouseMoveEvents s (moves ++ [last])) = Some r ∧
  lines (mouseMoveEvents s (moves ++ [last])) !! r = Some (p1 seg, scenePos last) ∧
  graph (mouseMoveEvents s (moves ++ [last])) = graph s ∧
  items (mouseMoveEvents s (moves ++ [last])) = items s.
Proof.
  intros Hl Hs.
  destruct (mouseMoveEvents_keep (moves ++ [last]) s) as (G & _ & _ & I).
  split; [|split; [|split; assumption]].
  - destruct (mouseMoveEvents_origin (moves ++ [last]) s r seg Hl Hs) as [H _].
    exact H.
  - unfold mouseMoveEvents. rewrite fold_left_app. simpl.
    destruct (mouseMoveEvents_origin moves s r seg Hl Hs) as (Hl' & q & Hq).
    exact (proj2 (mouseMoveEvent_segment _ last r _ Hl' Hq)).
Qed.

(** What a release that does not connect leaves: the scene with the line
    item taken off, with at most one printed message, and with [self.line]
    cleared unless the handler returned early. *)
Lemma mouseReleaseEvent_rejected s event r :
  line s = Some r →
  release_rejects items_at s = true →
  ∃ s', (s' = removeItem_line r s ∨ ∃ m, s' = say m (removeItem_line r s)) ∧
        (mouseReleaseEvent items_at addEdge s event = s'
         ∨ mouseReleaseEvent items_at addEdge s event = set_line None s').
Proof.
  intros Hl Hr. unfold release_rejects, release_pair in Hr.
  unfold mouseReleaseEvent. rewrite Hl in *.
  destruct (drop_line r (items_at (items s) (lines s) (p1 (line_segment s r))))
    as [|i1 r1].
  { exists (removeItem_line r s). split; [left | right]; reflexivity. }
  destruct (drop_line r (items_at (items s) (lines s) (p2 (line_segment s r))))
    as [|i2 r2].
  { exists (removeItem_line r s). split; [left | right]; reflexivity. }
  destruct i1 as [| sc | | |], i2 as [| dc | | |];
    try (exists (removeItem_line r s); split; left; reflexivity).
  unfold validateConnection.
  change (line (removeItem_line r s)) with (line s). rewrite Hl.
  destruct (isInputConnection sc || isOutputConnection dc).
  { eexists. split; [right; eexists; reflexivity | right; reflexivity]. }
  simpl in Hr. rewrite Hr.
  eexists. split; [right; eexists; reflexivity | right; reflexivity].
Qed.

(** X19. A release that does not connect (no connection widgets on top
    under both ends of the line, or a pair that fails the direction test or
    the same-node test) takes exactly the line being drawn off the scene and
    changes nothing else: the items afterwards are the items before without
    that line item, also on the path that returns early; [scenenodes], the
    segments of the line items, the graph and every [connections] dict are
    as before. When no line is being drawn the items are unchanged. *)
Theorem mouseReleaseEvent_removes_only_the_line (s : Scene) (event : MouseEvent) :
  release_rejects items_at s = true →
  items (mouseReleaseEvent items_at addEdge s event) =
    match line s with
    | Some r => filter (λ i, is_line r i = false) (items s)
    | None => items s
    end ∧
  scenenodes (mouseReleaseEvent items_at addEdge s event) = scenenodes s ∧
  lines (mouseReleaseEvent items_at addEdge s event) = lines s ∧
  graph (mouseReleaseEvent items_at addEdge s event) = graph s ∧
  connections (mouseReleaseEvent items_at addEdge s event) = connections s ∧
  (∀ r, line s = Some r →
        existsb (is_line r) (items (mouseReleaseEvent items_at addEdge s event))
          = false).
Proof.
  intros Hr. destruct (line s) as [r|] eqn:Hl.
  - destruct (mouseReleaseEvent_rejected s event r Hl Hr) as (s' & Hs' & Hrel).
    assert (Hfields : items s' = items (removeItem_line r s)
                      ∧ scenenodes s' = scenenodes s ∧ lines s' = lines s
                      ∧ graph s' = graph s ∧ connections s' = connections s).
    { destruct Hs' as [->|[m ->]]; repeat split. }
    destruct Hfields as (Hi & Hw & Hli & Hg & Hc).
    assert (Hall : items (mouseReleaseEvent items_at addEdge s event)
                     = items (removeItem_line r s)
                   ∧ scenenodes (mouseReleaseEvent items_at addEdge s event)
                     = scenenodes s
                   ∧ lines (mouseReleaseEvent items_at addEdge s event) = lines s
                   ∧ graph (mouseReleaseEvent items_at addEdge s event) = graph s
                   ∧ connections (mouseReleaseEvent items_at addEdge s event)
                     = connections s).
    { destruct Hrel as [->| ->]; repeat split; assumption. }
    destruct Hall as (Hi' & Hw' & Hli' & Hg' & Hc').
    repeat split; try assumption.
    intros r' [= <-]. rewrite Hi'. apply removeItem_line_gone.
  - unfold mouseReleaseEvent. rewrite Hl. repeat split. discriminate.
Qed.

Lemma validateConnection_approved s src dest force :
  line s ≠ None →
  fst (validateConnection s (IConnection src) (IConnection dest) force) = true →
  isInputConnection src = false ∧ isOutputConnection dest = false ∧
  conn_dagnode src ≠ conn_dagnode dest.
Proof.
  unfold validateConnection. destruct (line s) as [r|]; [|contradiction].
  intros _.
  destruct (isInputConnection src), (isOutputConnection dest); simpl;
    try discriminate.
  destruct (String.eqb_spec (conn_dagnode src) (conn_dagnode dest));
    [discriminate|]. auto.
Qed.

(** X20. A drag that ends well: when the top item under the first end of
    the line (the line itself apart) is a connection that is not an input,
    the top item under the second end is a connection that is not an output,
    the two belong to different nodes and the destination is not marked
    not-connectable, the release asks the graph for one edge from the
    source's node and name to the destination's node and name, on the graph
    as it was before the release (nothing is evicted), and [self.line] is
    cleared. *)
Theorem mouseReleaseEvent_connects (s : Scene) (event : MouseEvent) (r : ref)
    (sc dc : Connection) :
  line s = Some r →
  head (drop_line r (items_at (items s) (lines s) (p1 (line_segment s r))))
    = Some (IConnection sc) →
  head (drop_line r (items_at (items s) (lines s) (p2 (line_segment s r))))
    = Some (IConnection dc) →
  isInputConnection sc = false →
  isOutputConnection dc = false →
  conn_dagnode sc ≠ conn_dagnode dc →
  is_connectable dc ≠ Some false →
  graph (mouseReleaseEvent items_at addEdge s event) =
    addEdge (graph s) (conn_dagnode sc) (conn_dagnode dc)
      (conn_name sc) (conn_name dc) ∧
  line (mouseReleaseEvent items_at addEdge s event) = None.
Proof.
  intros Hl H1 H2 Hi Ho Hne Hc. unfold mouseReleaseEvent. rewrite Hl.
  destruct (drop_line r _) as [|i1 r1]; [discriminate|].
  destruct (drop_line r _) as [|i2 r2]; [discriminate|].
  simpl in H1, H2. injection H1 as ->. injection H2 as ->.
  unfold validateConnection.
  change (line (removeItem_line r s)) with (line s). rewrite Hl, Hi, Ho. simpl.
  destruct (String.eqb_spec (conn_dagnode sc) (conn_dagnode dc)); [contradiction|].
  destruct (is_connectable dc) as [[|]|]; try (split; reflexivity).
  contradiction.
Qed.

(** X21. A release changes the graph only by adding an edge between two
    connection widgets that validation approved: whenever the graph after a
    release differs from the graph before, a line was being drawn, a
    connection that is not an input lies under its first end, a connection
    that is not an output lies under its second end, the two belong to
    different nodes, and the new graph is [addEdge] for exactly that pair,
    applied to the graph that validation left. *)
Theorem mouseReleaseEvent_adds_only_valid_edges (s : Scene) (event : MouseEvent) :
  graph (mouseReleaseEvent items_at addEdge s event) ≠ graph s →
  ∃ r sc dc,
    line s = Some r ∧
    In (IConnection sc) (items_at (items s) (lines s) (p1 (line_segment s r))) ∧
    In (IConnection dc) (items_at (items s) (lines s) (p2 (line_segment s r))) ∧
    isInputConnection sc = false ∧
    isOutputConnection dc = false ∧
    conn_dagnode sc ≠ conn_dagnode dc ∧
    graph (mouseReleaseEvent items_at addEdge s event) =
      addEdge
        (graph (snd (validateConnection (removeItem_line r s)
                       (IConnection sc) (IConnection dc) true)))
        (conn_dagnode sc) (conn_dagnode dc) (conn_name sc) (conn_name dc).
Proof.
  unfold mouseReleaseEvent. destruct (line s) as [r|] eqn:Hl;
    [|intros H; exfalso; apply H; reflexivity].
  destruct (drop_line r (items_at (items s) (lines s) (p1 (line_segment s r))))
    as [|i1 r1] eqn:E1; [intros H; exfalso; apply H; reflexivity|].
  destruct (drop_line r (items_at (items s) (lines s) (p2 (line_segment s r))))
    as [|i2 r2] eqn:E2; [intros H; exfalso; apply H; reflexivity|].
  destruct i1 as [| sc | | |]; try solve [intros H; exfalso; apply H; reflexivity].
  destruct i2 as [| dc | | |]; try solve [intros H; exfalso; apply H; reflexivity].
  pose proof (validateConnection_rejected_graph
                (removeItem_line r s) (IConnection sc) (IConnection dc) true) as Hrej.
  pose proof (validateConnection_approved (removeItem_line r s) sc dc true) as Happ.
  destruct (validateConnection _ _ _ _) as [[|] s2] eqn:Ev; simpl in *.
  - intros _. exists r, sc, dc. rewrite Ev.
    destruct Happ as (Hi & Ho & Hne); [rewrite Hl; discriminate | reflexivity |].
    repeat split; try assumption; try reflexivity;
      eapply drop_line_head; eassumption.
  - intros H. exfalso. apply H. apply Hrej. reflexivity.
Qed.

(** A press that does not detach either changes nothing or starts a line
    of length zero at the pointer. *)
Lemma mousePressEvent_without_detach s event :
  detaching_press items_at s event = false →
  mousePressEvent items_at s event = s
  ∨ mousePressEvent items_at s event
    = new_line (scenePos event, scenePos event) s.
Proof.
  unfold detaching_press, mousePressEvent.
  destruct (button event); try (intros _; left; reflexivity).
  destruct (itemAt items_at s (scenePos event)) as [[| item | | |]|];
    try (intros _; left; reflexivity).
  destruct (isInputConnection item); simpl.
  - destruct (isOutputConnection item);
      [change (connection_edges (new_line ?seg s) item)
         with (connection_edges s item)|];
      destruct (connection_edges s item) as [|e [|e' es]];
      try discriminate; intros _; auto.
  - intros _. destruct (isOutputConnection item); auto.
Qed.

(** X22. A press touches the model only to detach: whenever the graph or
    the [connections] of some terminal differ after a press, the press was
    made with the left button on a connection widget that is an input and
    carries exactly one edge. Presses with another button, presses on
    anything but a connection, on an output that is not an input, or on an
    input with no edge or with several, leave both as they were. *)
Theorem mousePressEvent_detach_only (s : Scene) (event : MouseEvent) :
  graph (mousePressEvent items_at s event) ≠ graph s
  ∨ connections (mousePressEvent items_at s event) ≠ connections s →
  button event = LeftButton ∧
  ∃ item e,
    itemAt items_at s (scenePos event) = Some (IConnection item) ∧
    isInputConnection item = true ∧
    connection_edges s item = [e].
Proof.
  unfold mousePressEvent.
  destruct (button event); try solve [unchanged].
  destruct (itemAt items_at s (scenePos event)) as [[| item | | |]|];
    try solve [unchanged].
  set (s1 := if isOutputConnection item then _ else s).
  assert (H1 : graph s1 = graph s ∧ connections s1 = connections s).
  { unfold s1. destruct (isOutputConnection item); split; reflexivity. }
  destruct H1 as [Hg Hc].
  assert (Hce : connection_edges s1 item = connection_edges s item).
  { unfold connection_edges, connections_of. rewrite Hc. reflexivity. }
  destruct (isInputConnection item) eqn:Ein; [|solve [unchanged]].
  rewrite Hce.
  destruct (connection_edges s item) as [|e [|e' es]] eqn:Ee;
    try solve [unchanged].
  intros _. split; [reflexivity|]. exists item, e.
  split; [reflexivity|]. split; [exact Ein | exact Ee].
Qed.

(** X23. A press that changes [self.line] starts a line that is shown and
    ends at the pointer: it was made with the left button, and the new
    [self.line] is a line item of the scene whose second end is the
    position of the press. *)
Theorem mousePressEvent_line (s : Scene) (event : MouseEvent) :
  line (mousePressEvent items_at s event) ≠ line s →
  button event = LeftButton ∧
  ∃ r o,
    line (mousePressEvent items_at s event) = Some r ∧
    lines (mousePressEvent items_at s event) !! r = Some (o, scenePos event) ∧
    In (ILine r) (items (mousePressEvent items_at s event)).
Proof.
  unfold mousePressEvent.
  destruct (button event); try solve [intros H; exfalso; apply H; reflexivity].
  destruct (itemAt items_at s (scenePos event)) as [[| item | | |]|];
    try solve [intros H; exfalso; apply H; reflexivity].
  set (s1 := if isOutputConnection item then _ else s).
  assert (H1 : line s1 ≠ line s →
               ∃ r o, line s1 = Some r ∧ lines s1 !! r = Some (o, scenePos event)
                      ∧ In (ILine r) (items s1)).
  { unfold s1. destruct (isOutputConnection item);
      [|intros H; exfalso; apply H; reflexivity].
    intros _. eexists _, _. simpl. split; [reflexivity|].
    split; [apply lookup_insert_eq | left; reflexivity]. }
  assert (Hnew : ∀ o x, ∃ r o',
             line (new_line (o, scenePos event) x) = Some r ∧
             lines (new_line (o, scenePos event) x) !! r = Some (o', scenePos event) ∧
             In (ILine r) (items (new_line (o, scenePos event) x))).
  { intros o x. eexists _, _. simpl. split; [reflexivity|].
    split; [apply lookup_insert_eq | left; reflexivity]. }
  destruct (isInputConnection item); [|intros H; split; [reflexivity | exact (H1 H)]].
  destruct (connection_edges s1 item) as [|e [|e' es]];
    try (intros H; split; [reflexivity | exact (H1 H)]).
  unfold disconnect_terminal.
  destruct (connections_of s1 item !! edge_id e);
    [|intros H; split; [reflexivity | exact (H1 H)]].
  cbn [fst snd]. destruct (removeEdge _ _) as [ok s3].
  intros _. split; [reflexivity|]. apply Hnew.
Qed.

(** X14. On the paths that call no code of the graph, the mouse handlers
    keep the registry and the scene in step: if every widget in
    [scenenodes] is an item of the scene before the event, the same holds
    after a press that does not detach an edge, after a move, and after a
    release that does not connect. *)
Theorem handlers_keep_registered_shown (s : Scene) (event : MouseEvent) :
  registered_shown s →
  (detaching_press items_at s event = false →
   registered_shown (mousePressEvent items_at s event)) ∧
  registered_shown (mouseMoveEvent s event) ∧
  (release_rejects items_at s = true →
   registered_shown (mouseReleaseEvent items_at addEdge s event)).
Proof.
  intros H. split; [|split].
  - intros Hd.
    destruct (mousePressEvent_without_detach s event Hd) as [-> | ->];
      [exact H|].
    intros k w Hk. right. exact (H k w Hk).
  - intros k w Hk. destruct (mouseMoveEvent_keeps s event) as (_ & _ & _ & Hi).
    rewrite Hi. apply (H k w).
    unfold mouseMoveEvent in Hk. destruct (line s); exact Hk.
  - intros Hr k w Hk. destruct (line s) as [r|] eqn:Hl.
    + destruct (mouseReleaseEvent_rejected s event r Hl Hr) as (s' & Hs' & Hrel).
      assert (Hin : In (widget_item w) (items (removeItem_line r s))).
      { assert (Hk' : scenenodes s !! k = Some w).
        { destruct Hrel as [E|E]; rewrite E in Hk;
            destruct Hs' as [->|[m ->]]; exact Hk. }
        apply list_elem_of_In, list_elem_of_filter. split.
        - destruct w; reflexivity.
        - apply list_elem_of_In. exact (H k w Hk'). }
      destruct Hrel as [E|E]; rewrite E; destruct Hs' as [->|[m ->]]; exact Hin.
    + unfold mouseReleaseEvent in *. rewrite Hl in *. exact (H k w Hk).
Qed.

End HandlerExtras.

Section HandlerExtrasWitnesses.
Import Graphics GraphicsExamples GraphicsMore.

Lemma mouseMoveEvents_follow_pointer_witness :
  line (mouseMoveEvents drawing1 ([move_to 30 30] ++ [move_to 5 0]))
    = Some 100%positive ∧
  lines (mouseMoveEvents drawing1 ([move_to 30 30] ++ [move_to 5 0])) !! 100%positive
    = Some (p1 ((0, 0), (50, 50))%Z, scenePos (move_to 5 0)) ∧
  graph (mouseMoveEvents drawing1 ([move_to 30 30] ++ [move_to 5 0]))
    = graph drawing1 ∧
  items (mouseMoveEvents drawing1 ([move_to 30 30] ++ [move_to 5 0]))
    = items drawing1.
Proof.
  apply (mouseMoveEvents_follow_pointer drawing1 [move_to 30 30] (move_to 5 0)
           100%positive ((0, 0), (50, 50))%Z).
  - reflexivity.
  - vm_compute. reflexivity.
Defined.

Lemma mouseReleaseEvent_connects_witness :
  graph (mouseReleaseEvent items_at1 addEdge1 drawing3 (release_at 5 0)) =
    addEdge1 (graph drawing3) (conn_dagnode A_out) (conn_dagnode C_in)
      (conn_name A_out) (conn_name C_in) ∧
  line (mouseReleaseEvent items_at1 addEdge1 drawing3 (release_at 5 0)) = None.
Proof.
  apply (mouseReleaseEvent_connects items_at1 addEdge1 drawing3 (release_at 5 0)
           100%positive A_out C_in).
  - reflexivity.
  - vm_compute. reflexivity.
  - vm_compute. reflexivity.
  - reflexivity.
  - reflexivity.
  - simpl. discriminate.
  - simpl. discriminate.
Defined.

Lemma mouseReleaseEvent_removes_only_the_line_witness :
  items (mouseReleaseEvent items_at1 addEdge1 drawing1 (release_at 50 50)) =
    match line drawing1 with
    | Some r => filter (λ i, is_line r i = false) (items drawing1)
    | None => items drawing1
    end ∧
  scenenodes (mouseReleaseEvent items_at1 addEdge1 drawing1 (release_at 50 50))
    = scenenodes drawing1 ∧
  lines (mouseReleaseEvent items_at1 addEdge1 drawing1 (release_at 50 50))
    = lines drawing1 ∧
  graph (mouseReleaseEvent items_at1 addEdge1 drawing1 (release_at 50 50))
    = graph drawing1 ∧
  connections (mouseReleaseEvent items_at1 addEdge1 drawing1 (release_at 50 50))
    = connections drawing1 ∧
  (∀ r, line drawing1 = Some r →
        existsb (is_line r)
          (items (mouseReleaseEvent items_at1 addEdge1 drawing1 (release_at 50 50)))
          = false).
Proof.
  apply (mouseReleaseEvent_removes_only_the_line items_at1 addEdge1 drawing1
           (release_at 50 50)).
  vm_compute. reflexivity.
Defined.

Lemma mouseReleaseEvent_adds_only_valid_edges_witness :
  ∃ r sc dc,
    line drawing3 = Some r ∧
    In (IConnection sc)
      (items_at1 (items drawing3) (lines drawing3) (p1 (line_segment drawing3 r))) ∧
    In (IConnection dc)
      (items_at1 (items drawing3) (lines drawing3) (p2 (line_segment drawing3 r))) ∧
    isInputConnection sc = false ∧
    isOutputConnection dc = false ∧
    conn_dagnode sc ≠ conn_dagnode dc ∧
    graph (mouseReleaseEvent items_at1 addEdge1 drawing3 (release_at 5 0)) =
      addEdge1
        (graph (snd (validateConnection (removeItem_line r drawing3)
                       (IConnection sc) (IConnection dc) true)))
        (conn_dagnode sc) (conn_dagnode dc) (conn_name sc) (conn_name dc).
Proof.
  apply (mouseReleaseEvent_adds_only_valid_edges items_at1 addEdge1 drawing3
           (release_at 5 0)).
  intros H. apply (f_equal (λ g, has_edge g "e2")) in H.
  vm_compute in H. discriminate.
Defined.

Lemma mousePressEvent_detach_only_witness :
  button press_B_in = LeftButton ∧
  ∃ item e,
    itemAt items_at1 idle1 (scenePos press_B_in) = Some (IConnection item) ∧
    isInputConnection item = true ∧
    connection_edges idle1 item = [e].
Proof.
  apply (mousePressEvent_detach_only items_at1 idle1 press_B_in).
  left. intros H. apply (f_equal (λ g, has_edge g "e1")) in H.
  vm_compute in H. discriminate.
Defined.

Lemma mousePressEvent_line_witness :
  button press_A_out = LeftButton ∧
  ∃ r o,
    line (mousePressEvent items_at1 idle1 press_A_out) = Some r ∧
    lines (mousePressEvent items_at1 idle1 press_A_out) !! r
      = Some (o, scenePos press_A_out) ∧
    In (ILine r) (items (mousePressEvent items_at1 idle1 press_A_out)).
Proof.
  apply (mousePressEvent_line items_at1 idle1 press_A_out).
  vm_compute. discriminate.
Defined.

Lemma handlers_keep_registered_shown_witness :
  (detaching_press items_at1 idle1 press_A_out = false →
   registered_shown (mousePressEvent items_at1 idle1 press_A_out)) ∧
  registered_shown (mouseMoveEvent idle1 press_A_out) ∧
  (release_rejects items_at1 idle1 = true →
   registered_shown (mouseReleaseEvent items_at1 addEdge1 idle1 press_A_out)).
Proof.
  apply (handlers_keep_registered_shown items_at1 addEdge1 idle1 press_A_out).
  exact registered_shown_idle1.
Defined.

End HandlerExtrasWitnesses.
